(** * runner.py: run one program fragment and echo its last value

    A shallow embedding of [src/api/tools/python/runner.py].  The two functions
    of the file, [exec_code] and [main], are embedded line by line.  They call
    into the Python standard library ([json.loads], [ast.parse], [ast.unparse],
    [exec], [eval], [str], [traceback.format_exception_only]); those calls go
    through the record [Runtime], so that every statement about [exec_code] and
    [main] that does not depend on what a particular program computes is proved
    for every runtime.  Module [Ref] then gives one runtime, an interpreter of
    a fragment of Python and of JSON, on which the programs the specification
    names are run.

    Text is [string]; a character is read as the code point of the same number
    (0 to 255). *)

From Stdlib Require Import ZArith Ascii String List Lia.
From stdpp Require Import base option list strings pretty gmap.

Set Warnings "-register-all".
Local Open Scope Z_scope.

(** ** Text *)

(** The line feed and the double quote, which a literal cannot hold. *)
Definition nl : string := String "010"%char EmptyString.
Definition dq : string := String "034"%char EmptyString.

(** [str.isspace] on one character: the code points below 256 that Python
    counts as whitespace (TAB to CR, FS to US, space, NEL and NBSP). *)
Definition isspace (c : ascii) : bool :=
  let n := N_of_ascii c in
  ((9 <=? n) && (n <=? 13) || (28 <=? n) && (n <=? 32) || (n =? 133) || (n =? 160))%N.

Fixpoint lstrip (s : string) : string :=
  match s with
  | EmptyString => EmptyString
  | String c s' => if isspace c then lstrip s' else s
  end.

Fixpoint rstrip (s : string) : string :=
  match s with
  | EmptyString => EmptyString
  | String c s' =>
      match rstrip s' with
      | EmptyString => if isspace c then EmptyString else String c EmptyString
      | r => String c r
      end
  end.

(** [s.strip()] with no argument. *)
Definition strip (s : string) : string := rstrip (lstrip s).

(** A text that [str.strip] empties: every character of it is whitespace. *)
Fixpoint all_space (s : string) : bool :=
  match s with
  | EmptyString => true
  | String c s' => isspace c && all_space s'
  end.

(** The truth value of a text in a condition: [if s:]. *)
Definition truthy (s : string) : bool :=
  match s with EmptyString => false | _ => true end.

(** [sep.join(parts)]. *)
Fixpoint join (sep : string) (parts : list string) : string :=
  match parts with
  | [] => EmptyString
  | [p] => p
  | p :: ps => p +:+ sep +:+ join sep ps
  end.

(** ** Objects the runner handles *)

(** What [json.loads] can return. A float keeps the text of its literal. *)
Inductive pyobj : Type :=
| PyNone
| PyBool (b : bool)
| PyInt (z : Z)
| PyFloat (literal : string)
| PyStr (s : string)
| PyList (items : list pyobj)
| PyDict (items : list (string * pyobj)).

(** A raised exception: the name of its class as a traceback shows it, the
    names of the classes it is an instance of (its method resolution order),
    [str(exc)], and the exception it was raised [from], if any.  A class is
    known by its name; the names of the builtin classes stand for those
    classes alone. *)
Inductive exn : Type :=
  Exn { exc_type : string;
        exc_mro : list string;
        exc_str : string;
        exc_cause : option exn }.

(** [isinstance(exc, cls)], which is what an [except cls] clause tests. *)
Definition isinstance (exc : exn) (cls : string) : bool :=
  bool_decide (cls ∈ exc_mro exc).

Definition builtin_error (name : string) (bases : list string) (msg : string) : exn :=
  Exn name (name :: bases ++ ["Exception"; "BaseException"; "object"]) msg None.

(** ** Syntax trees: the part of [ast] the runner looks at *)

Inductive operator : Type := Add | Sub | Mult | Div.
Inductive unaryop : Type := USub.
Inductive constant : Type := CInt (z : Z) | CNone.

(** [OtherExpr] stands for a node of any expression class that is not listed
    (Subscript, Attribute, Tuple, Lambda, ...), with the name of its class and
    its text. *)
Inductive expr : Type :=
| Constant (value : constant)
| Name (id : string)
| UnaryOp (op : unaryop) (operand : expr)
| BinOp (left : expr) (op : operator) (right : expr)
| Call (func : expr) (args : list expr)
| OtherExpr (class_name text : string).

(** [OtherStmt] stands for a statement of any class that is not listed
    (If, While, FunctionDef, ClassDef, Import, ...), with the name of its
    class and its text.  [For] is a loop with no [else]. *)
Inductive stmt : Type :=
| Expr (value : expr)
| Assign (targets : list expr) (value : expr)
| AugAssign (target : expr) (op : operator) (value : expr)
| AnnAssign (target annotation : expr) (value : option expr) (simple : bool)
| For (target iter : expr) (body : list stmt)
| Raise (exc cause : option expr)
| Pass
| OtherStmt (class_name text : string).

(** [ast.Module]. *)
Record ast_module : Type := Module_ { body : list stmt }.

(** What [ast.unparse] is applied to. *)
Inductive node : Type :=
| NMod (m : ast_module)
| NStmt (s : stmt)
| NExpr (e : expr).

(** ** Streams, state and the monad of effects *)

Record world : Type := World { stdout : string; stderr : string }.

Definition write_stdout (s : string) (w : world) : world :=
  World (stdout w +:+ s) (stderr w).
Definition write_stderr (s : string) (w : world) : world :=
  World (stdout w) (stderr w +:+ s).

(** [print(s, file=sys.stderr)] and [print(s, file=sys.stderr, end="")]. *)
Definition print_stderr (s : string) (ending : string) (w : world) : world :=
  write_stderr (s +:+ ending) w.

(** A computation over a state [S] either returns or raises, and keeps the
    state it reached in both cases. *)
Definition M (S A : Type) : Type := S → S * (exn + A).

Global Instance M_ret {S} : MRet (M S) := λ A a s, (s, inr a).
Global Instance M_bind {S} : MBind (M S) := λ A B f m s,
  match m s with
  | (s', inl e) => (s', inl e)
  | (s', inr a) => f a s'
  end.

Definition raise {S A} (e : exn) : M S A := λ s, (s, inl e).
Definition lift {S A} (r : exn + A) : M S A := λ s, (s, r).

(** A call that touches no state either returns or raises. *)
Global Instance sum_ret : MRet (sum exn) := λ A a, inr a.
Global Instance sum_bind : MBind (sum exn) := λ A B f r,
  match r with
  | inl e => inl e
  | inr a => f a
  end.

(** A write to a stream, in a state whose second part is the streams. *)
Definition on_world {N} (f : world → world) : M (N * world) unit :=
  λ st, ((st.1, f st.2), inr tt).

(** ** The Python runtime *)

(** The library calls of the runner. A state is a namespace (the [globals]
    dictionary) together with the two streams. *)
Record Runtime : Type := {
  value : Type;
  namespace : Type;
  empty_namespace : namespace;                          (* [{}] *)
  json_loads : string → exn + pyobj;                    (* [json.loads(s)] *)
  ast_parse_str : string → exn + ast_module;            (* [ast.parse(s)], [s] a text *)
  ast_unparse : node → exn + string;                    (* [ast.unparse(n)] *)
  py_exec : string → M (namespace * world) unit;        (* [exec(s, globals)] *)
  py_eval : string → M (namespace * world) value;       (* [eval(s, globals)] *)
  py_str : value → M (namespace * world) string;        (* [str(v)] *)
  is_None : value → bool;                               (* [v is None] *)
  format_exception_only : exn → list string             (* [traceback.format_exception_only(type(e), e)] *)
}.

(** [compile], which [ast.parse] calls, rejects a source that is not a string,
    bytes or a syntax tree. *)
Definition compile_TypeError : exn :=
  builtin_error "TypeError" [] "compile() arg 1 must be a string, bytes or AST object".

(** [targets[0]] of an empty list. *)
Definition IndexError : exn :=
  builtin_error "IndexError" ["LookupError"] "list index out of range".

Section Runner.
Context (rt : Runtime).

Abbreviation state := (namespace rt * world)%type.

(** [ast.parse(code)] at an object [json.loads] returned. *)
Definition ast_parse (code : pyobj) : exn + ast_module :=
  match code with
  | PyStr s => ast_parse_str rt s
  | _ => inl compile_TypeError
  end.

(** [print(v)]: the text of [v] and a line feed, on standard output. *)
Definition print (v : value rt) : M state unit :=
  s ← py_str rt v;
  on_world (write_stdout (s +:+ nl)).

(** Lines 9 to 16 of [exec_code]: the body left to execute and the text of
    the expression to echo.  [a.body.pop()] shortens the body of [a] itself,
    the tree line 17 unparses: the body is returned as the branch left it.
    [ast.unparse] can raise (it recurses on the tree and a deep one exhausts
    the stack); its exception leaves [exec_code] from the line it is on. *)
Definition split_last (body : list stmt) : exn + (list stmt * option string) :=
  match last body with
  | None => inr (body, None)
  | Some a_last =>
      match a_last with
      | Expr _ =>
          text ← ast_unparse rt (NStmt a_last);
          inr (removelast body, Some text)
      | Assign targets _ =>
          match targets with
          | [] => inl IndexError
          | t :: _ => text ← ast_unparse rt (NExpr t); inr (body, Some text)
          end
      | AnnAssign target _ _ _ | AugAssign target _ _ =>
          text ← ast_unparse rt (NExpr target);
          inr (body, Some text)
      | _ => inr (body, None)
      end
  end.

(** Lines 18 to 21 of [exec_code]. *)
Definition echo (last_expression : option string) : M state unit :=
  match last_expression with
  | Some src =>
      if truthy src then
        v ← py_eval rt src;
        if is_None rt v then mret tt else print v
      else mret tt
  | None => mret tt
  end.

Definition exec_code (code : pyobj) : M state unit :=
  a ← lift (ast_parse code);
  '(residual, last_expression) ← lift (split_last (body a));
  text ← lift (ast_unparse rt (NMod (Module_ residual)));
  py_exec rt text;;
  echo last_expression.

(** [main] returns its status, or lets an exception it does not catch
    through to its caller. *)
Definition main (raw_code : option string) (w : world) : world * (exn + Z) :=
  match raw_code with
  | None => (print_stderr "Error: no code to execute" nl w, inr 1)
  | Some raw =>
      if String.eqb (strip raw) EmptyString then
        (print_stderr "Error: no code to execute" nl w, inr 1)
      else
        match json_loads rt raw with
        | inl e =>
            if isinstance e "JSONDecodeError" then
              (print_stderr "Error: JSON decode failed" nl w, inr 1)
            else (w, inl e)
        | inr code =>
            match exec_code code (empty_namespace rt, w) with
            | ((_, w'), inr tt) => (w', inr 0)
            | ((_, w'), inl exc) =>
                if isinstance exc "Exception" then
                  let tb := format_exception_only rt exc in
                  (print_stderr (join nl tb) EmptyString w', inr 1)
                else (w', inl exc)
            end
        end
  end.

(** The [try] statement of [main], lines 34 to 40, at the outcome of its
    body. *)
Definition report (r : state * (exn + unit)) : world * (exn + Z) :=
  match r with
  | ((_, w'), inr _) => (w', inr 0)
  | ((_, w'), inl exc) =>
      if isinstance exc "Exception" then
        (print_stderr (join nl (format_exception_only rt exc)) EmptyString w', inr 1)
      else (w', inl exc)
  end.

End Runner.


(** ** What the last statement contributes *)

(** [echoes s removed target]: a last statement [s] gives the echo its text,
    the unparsing of [target], and [removed] tells whether [s] is taken out
    of the body before the body runs. *)
Inductive echoes : stmt → bool → node → Prop :=
| echoes_Expr v :
    echoes (Expr v) true (NStmt (Expr v))
| echoes_Assign t ts v :
    echoes (Assign (t :: ts) v) false (NExpr t)
| echoes_AnnAssign t ann v simple :
    echoes (AnnAssign t ann v simple) false (NExpr t)
| echoes_AugAssign t op v :
    echoes (AugAssign t op v) false (NExpr t).

(** A statement of none of the four classes [exec_code] tests for. *)
Definition other_kind (s : stmt) : bool :=
  match s with
  | Expr _ | Assign _ _ | AnnAssign _ _ _ _ | AugAssign _ _ _ => false
  | _ => true
  end.

(** A body that is empty or ends with a statement of another class. *)
Definition ends_with_other (b : list stmt) : bool :=
  match last b with
  | None => true
  | Some s => other_kind s
  end.

(** An input that is absent or holds nothing but whitespace. *)
Definition blank (raw_code : option string) : bool :=
  match raw_code with
  | None => true
  | Some raw => all_space raw
  end.

(** An object that is a text. *)
Definition is_str (o : pyobj) : bool :=
  match o with PyStr _ => true | _ => false end.

(** ** The outcomes of [main] *)


(** [escapes rt raw_code w w' e]: one of the two ways in which the exception
    [e] leaves [main], with the streams [w']. *)
Inductive escapes (rt : Runtime) (raw_code : option string) (w : world) : world → exn → Prop :=
| escapes_decoder raw e :
    raw_code = Some raw →
    blank raw_code = false →
    json_loads rt raw = inl e →
    isinstance e "JSONDecodeError" = false →
    escapes rt raw_code w w e
| escapes_program raw code g w1 e :
    raw_code = Some raw →
    blank raw_code = false →
    json_loads rt raw = inr code →
    exec_code rt code (empty_namespace rt, w) = ((g, w1), inl e) →
    isinstance e "Exception" = false →
    escapes rt raw_code w w1 e.

(** * A reference runtime

    An interpreter of a fragment of Python and a decoder of a fragment of
    JSON, written after the language reference and the library's
    documentation.  The fragment: integers and [None]; names; [+ - *] on
    integers and [/] by zero; unary minus; calls of [print], [range] and the
    exception classes below; expression statements, assignments to names,
    annotated and augmented assignments to names, [for] over a [range],
    [raise] and [pass].  Integers stay below 2^14000 in absolute value, where
    no version of Python limits their conversion to and from text, and trees
    are at most [max_depth] deep, where the parser, [ast.unparse] and the
    compiler stay within the interpreter's stack.  For a
    text outside the fragment, or a computation that leaves it, the runtime
    raises [outside_fragment], which is an instance of no class: nothing is
    stated about such programs. *)
Module Ref.

Definition outside_fragment : exn :=
  Exn "<outside the fragment>" [] EmptyString None.

(** The integers of the fragment. *)
Definition small (z : Z) : bool := Z.log2 (Z.abs z) <? 14000.

(** The depth of a tree: the longest chain of nodes one inside the other. *)
Fixpoint expr_depth (e : expr) : nat :=
  match e with
  | Constant _ | Name _ | OtherExpr _ _ => 1%nat
  | UnaryOp _ a => S (expr_depth a)
  | BinOp l _ r => S (Nat.max (expr_depth l) (expr_depth r))
  | Call f args => S (foldr (λ a d, Nat.max (expr_depth a) d) (expr_depth f) args)
  end.

Definition option_depth (o : option expr) : nat :=
  match o with Some e => expr_depth e | None => O end.

Fixpoint stmt_depth (s : stmt) : nat :=
  match s with
  | Expr v => S (expr_depth v)
  | Assign targets v =>
      S (foldr (λ t d, Nat.max (expr_depth t) d) (expr_depth v) targets)
  | AugAssign t _ v => S (Nat.max (expr_depth t) (expr_depth v))
  | AnnAssign t ann v _ =>
      S (Nat.max (expr_depth t) (Nat.max (expr_depth ann) (option_depth v)))
  | For t it b =>
      S (foldr (λ s' d, Nat.max (stmt_depth s') d)
           (Nat.max (expr_depth t) (expr_depth it)) b)
  | Raise e c => S (Nat.max (option_depth e) (option_depth c))
  | Pass | OtherStmt _ _ => 1%nat
  end.

Definition node_depth (n : node) : nat :=
  match n with
  | NMod m => S (foldr (λ s d, Nat.max (stmt_depth s) d) O (body m))
  | NStmt s => stmt_depth s
  | NExpr e => expr_depth e
  end.

Definition max_depth : nat := 50.

(** The trees of the fragment. *)
Definition shallow (n : node) : bool := (node_depth n <=? max_depth)%nat.

(** ** Tokens *)

Inductive token : Type :=
| TNum (z : Z) | TName (id : string)
| TNone | TPass | TFor | TIn | TRaise | TFrom
| TPlus | TMinus | TStar | TSlash | TEq | TAug (op : operator)
| TLpar | TRpar | TComma | TColon | TSemi.

Definition is_digit (c : ascii) : bool :=
  let n := N_of_ascii c in ((48 <=? n) && (n <=? 57))%N.
Definition digit_value (c : ascii) : Z := Z.of_N (N_of_ascii c) - 48.
Definition is_word_start (c : ascii) : bool :=
  let n := N_of_ascii c in
  ((65 <=? n) && (n <=? 90) || (97 <=? n) && (n <=? 122) || (n =? 95))%N.

(** The keywords of Python that the fragment has no statement for. *)
Definition other_keywords : list string :=
  ["False"; "True"; "and"; "as"; "assert"; "async"; "await"; "break"; "class";
   "continue"; "def"; "del"; "elif"; "else"; "except"; "finally"; "global";
   "if"; "import"; "is"; "lambda"; "nonlocal"; "not"; "or"; "return"; "try";
   "while"; "with"; "yield"].

Definition classify_word (w : string) : option token :=
  if String.eqb w "None" then Some TNone
  else if String.eqb w "pass" then Some TPass
  else if String.eqb w "for" then Some TFor
  else if String.eqb w "in" then Some TIn
  else if String.eqb w "raise" then Some TRaise
  else if String.eqb w "from" then Some TFrom
  else if bool_decide (w ∈ other_keywords) then None
  else Some (TName w).

(** The token the lexer is in the middle of. *)
Inductive pending : Type :=
| PIdle
| PDigits (z : Z) (leading_zero : bool)
| PWord (w : string)
| POp (c : ascii).

Definition op_token (c : ascii) : option token :=
  if Ascii.eqb c "+" then Some TPlus
  else if Ascii.eqb c "-" then Some TMinus
  else if Ascii.eqb c "*" then Some TStar
  else if Ascii.eqb c "/" then Some TSlash
  else if Ascii.eqb c "=" then Some TEq
  else None.

Definition aug_token (c : ascii) : option token :=
  if Ascii.eqb c "+" then Some (TAug Add)
  else if Ascii.eqb c "-" then Some (TAug Sub)
  else if Ascii.eqb c "*" then Some (TAug Mult)
  else if Ascii.eqb c "/" then Some (TAug Div)
  else None.

Definition punct_token (c : ascii) : option token :=
  if Ascii.eqb c "(" then Some TLpar
  else if Ascii.eqb c ")" then Some TRpar
  else if Ascii.eqb c "," then Some TComma
  else if Ascii.eqb c ":" then Some TColon
  else if Ascii.eqb c ";" then Some TSemi
  else None.

Definition flush (p : pending) : option (list token) :=
  match p with
  | PIdle => Some []
  | PDigits z _ => if small z then Some [TNum z] else None
  | PWord w => t ← classify_word w; Some [t]
  | POp c => t ← op_token c; Some [t]
  end.

Inductive lex_step : Type :=
| Emit (ts : list token) (p : pending)
| Stop (ts : list token)
| Bad.

(** A character that starts a token, after the tokens [ts] before it. *)
Definition fresh (ts : option (list token)) (c : ascii) : lex_step :=
  match ts with
  | None => Bad
  | Some ts =>
      if Ascii.eqb c " " then Emit ts PIdle
      else if Ascii.eqb c "#" then Stop ts
      else if is_digit c then Emit ts (PDigits (digit_value c) (Ascii.eqb c "0"))
      else if is_word_start c then Emit ts (PWord (String c EmptyString))
      else match op_token c, punct_token c with
           | Some _, _ => Emit ts (POp c)
           | None, Some t => Emit (ts ++ [t]) PIdle
           | None, None => Bad
           end
  end.

Definition step (p : pending) (c : ascii) : lex_step :=
  match p with
  | PIdle => fresh (Some []) c
  | PDigits z leading_zero =>
      if is_digit c then
        if leading_zero then Bad else Emit [] (PDigits (10 * z + digit_value c) false)
      else if is_word_start c then Bad
      else fresh (flush p) c
  | PWord w =>
      if is_word_start c || is_digit c then Emit [] (PWord (w +:+ String c EmptyString))
      else fresh (flush p) c
  | POp o =>
      if Ascii.eqb c "=" then
        match aug_token o with Some t => Emit [t] PIdle | None => Bad end
      else if Ascii.eqb c o && (Ascii.eqb o "*" || Ascii.eqb o "/") then Bad
      else fresh (flush p) c
  end.

Fixpoint lex_go (s : string) (p : pending) : option (list token) :=
  match s with
  | EmptyString => flush p
  | String c s' =>
      match step p c with
      | Emit ts p' => r ← lex_go s' p'; Some (ts ++ r)
      | Stop ts => Some ts
      | Bad => None
      end
  end.

(** The tokens of one line that holds no line feed. *)
Definition lex (line : string) : option (list token) := lex_go line PIdle.

(** ** Expressions *)

Inductive level : Type := Arith | Term | Factor | Primary.

Definition binop_at (lvl : level) (ts : list token) : option (operator * list token) :=
  match lvl, ts with
  | Arith, TPlus :: r => Some (Add, r)
  | Arith, TMinus :: r => Some (Sub, r)
  | Term, TStar :: r => Some (Mult, r)
  | Term, TSlash :: r => Some (Div, r)
  | _, _ => None
  end.

Definition atom (ts : list token) : option (expr * list token) :=
  match ts with
  | TNum z :: r => Some (Constant (CInt z), r)
  | TNone :: r => Some (Constant CNone, r)
  | TName x :: r => Some (Name x, r)
  | _ => None
  end.

(** Recursive descent; [n] bounds the depth of the calls. *)
Fixpoint p_expr (n : nat) (lvl : level) (ts : list token) : option (expr * list token) :=
  match n with
  | O => None
  | S n =>
      match lvl with
      | Arith => '(l, r) ← p_expr n Term ts; p_rest n Arith l r
      | Term => '(l, r) ← p_expr n Factor ts; p_rest n Term l r
      | Factor =>
          match ts with
          | TMinus :: r => '(e, r') ← p_expr n Factor r; Some (UnaryOp USub e, r')
          | _ => p_expr n Primary ts
          end
      | Primary =>
          match ts with
          | TLpar :: r =>
              '(e, r') ← p_expr n Arith r;
              match r' with
              | TRpar :: r'' => p_trailers n e r''
              | _ => None
              end
          | _ => '(a, r) ← atom ts; p_trailers n a r
          end
      end
  end
with p_rest (n : nat) (lvl : level) (l : expr) (ts : list token) : option (expr * list token) :=
  match n with
  | O => None
  | S n =>
      match binop_at lvl ts with
      | Some (op, r) =>
          '(e, r') ← p_expr n (match lvl with Arith => Term | _ => Factor end) r;
          p_rest n lvl (BinOp l op e) r'
      | None => Some (l, ts)
      end
  end
with p_trailers (n : nat) (f : expr) (ts : list token) : option (expr * list token) :=
  match n with
  | O => None
  | S n =>
      match ts with
      | TLpar :: r => '(args, r') ← p_args n r; p_trailers n (Call f args) r'
      | _ => Some (f, ts)
      end
  end
with p_args (n : nat) (ts : list token) : option (list expr * list token) :=
  match n with
  | O => None
  | S n =>
      match ts with
      | TRpar :: r => Some ([], r)
      | _ =>
          '(e, r) ← p_expr n Arith ts;
          match r with
          | TComma :: r' => '(es, r'') ← p_args n r'; Some (e :: es, r'')
          | TRpar :: r' => Some ([e], r')
          | _ => None
          end
      end
  end.

Definition fuel_for (ts : list token) : nat := 8 * length ts + 8.

(** An expression at the head of [ts], and the tokens after it. *)
Definition expression (ts : list token) : option (expr * list token) :=
  p_expr (fuel_for ts) Arith ts.

(** An expression that is all of [ts]. *)
Definition whole_expression (ts : list token) : option expr :=
  '(e, r) ← expression ts;
  match r with [] => Some e | _ => None end.

(** ** Statements *)

(** [t1 = t2 = ... = value], the targets read so far in [targets]. *)
Fixpoint p_assign (n : nat) (targets : list expr) (e : expr) (ts : list token) : option stmt :=
  match n with
  | O => None
  | S n =>
      match ts with
      | [] => Some (match targets with [] => Expr e | _ => Assign targets e end)
      | TEq :: r =>
          match e with
          | Name _ => '(e', r') ← expression r; p_assign n (targets ++ [e]) e' r'
          | _ => None
          end
      | _ => None
      end
  end.

(** One simple statement that is all of [ts]. *)
Definition simple_stmt (ts : list token) : option stmt :=
  match ts with
  | [TPass] => Some Pass
  | [TRaise] => Some (Raise None None)
  | TRaise :: r =>
      '(e, r') ← expression r;
      match r' with
      | [] => Some (Raise (Some e) None)
      | TFrom :: r'' => c ← whole_expression r''; Some (Raise (Some e) (Some c))
      | _ => None
      end
  | TName x :: TColon :: r =>
      '(ann, r') ← expression r;
      match r' with
      | [] => Some (AnnAssign (Name x) ann None true)
      | TEq :: r'' => v ← whole_expression r''; Some (AnnAssign (Name x) ann (Some v) true)
      | _ => None
      end
  | TName x :: TAug op :: r => v ← whole_expression r; Some (AugAssign (Name x) op v)
  | _ => '(e, r) ← expression ts; p_assign (S (length r)) [] e r
  end.

(** The tokens of a line, cut at its semicolons. *)
Fixpoint split_semis (ts : list token) (cur : list token) : list (list token) :=
  match ts with
  | [] => [cur]
  | TSemi :: r => cur :: split_semis r []
  | t :: r => split_semis r (cur ++ [t])
  end.

(** [s1; s2; ...], with or without a last semicolon. *)
Definition simple_stmts (ts : list token) : option (list stmt) :=
  let parts := split_semis ts [] in
  let parts := match last parts with Some [] => removelast parts | _ => parts end in
  match parts with
  | [] => None
  | _ => mapM simple_stmt parts
  end.

(** ** Lines and blocks *)

Fixpoint split_lines (s : string) (cur : string) : list string :=
  match s with
  | EmptyString => [cur]
  | String c s' =>
      if Ascii.eqb c "010" then cur :: split_lines s' EmptyString
      else split_lines s' (cur +:+ String c EmptyString)
  end.

(** The number of spaces a line starts with, and the rest of the line. *)
Fixpoint indentation (s : string) : nat * string :=
  match s with
  | String c s' =>
      if Ascii.eqb c " " then let '(n, r) := indentation s' in (S n, r) else (O, s)
  | EmptyString => (O, s)
  end.

(** A line with tokens on it: its indentation and its tokens. *)
Definition line : Type := nat * list token.

(** The lines of a source that hold a token; a blank line and a line that
    only holds a comment do not count. *)
Definition lines_of (src : string) : option (list line) :=
  ls ← mapM (λ l, let '(n, r) := indentation l in ts ← lex r; Some (n, ts))
            (split_lines src EmptyString);
  Some (filter (λ l : line, l.2 ≠ []) ls).

(** The statements at indentation [indent], up to the first line indented
    less, and the lines from there on. *)
Fixpoint p_block (n : nat) (indent : nat) (ls : list line) : option (list stmt * list line) :=
  match n with
  | O => None
  | S n =>
      match ls with
      | [] => Some ([], [])
      | (i, ts) :: rest =>
          if (i <? indent)%nat then Some ([], ls)
          else if negb (i =? indent)%nat then None
          else
            match ts with
            | TFor :: TName x :: TIn :: r =>
                '(it, r') ← expression r;
                match r' with
                | [TColon] =>
                    match rest with
                    | (j, _) :: _ =>
                        if (indent <? j)%nat then
                          '(b, rest') ← p_block n j rest;
                          '(more, rest'') ← p_block n indent rest';
                          Some (For (Name x) it b :: more, rest'')
                        else None
                    | [] => None
                    end
                | TColon :: inline =>
                    b ← simple_stmts inline;
                    '(more, rest') ← p_block n indent rest;
                    Some (For (Name x) it b :: more, rest')
                | _ => None
                end
            | _ =>
                ss ← simple_stmts ts;
                '(more, rest') ← p_block n indent rest;
                Some (ss ++ more, rest')
            end
      end
  end.

(** A module of the fragment, from its source. *)
Definition parse_module (src : string) : option ast_module :=
  ls ← lines_of src;
  '(b, rest) ← p_block (2 * length ls + 2) 0 ls;
  match rest with
  | [] => if shallow (NMod (Module_ b)) then Some (Module_ b) else None
  | _ => None
  end.

(** An expression of the fragment, from its source ([eval] reads one). *)
Definition parse_expression (src : string) : option expr :=
  ts ← lex src;
  e ← whole_expression ts;
  if shallow (NExpr e) then Some e else None.

(** ** [ast.unparse] *)

(** The precedences of [ast._Precedence] that the fragment meets, in their
    order: TEST, ARITH, TERM, FACTOR, ATOM. *)
Definition P_TEST : nat := 0.
Definition P_ARITH : nat := 1.
Definition P_TERM : nat := 2.
Definition P_FACTOR : nat := 3.
Definition P_ATOM : nat := 4.

Definition op_text (op : operator) : string :=
  match op with Add => "+" | Sub => "-" | Mult => "*" | Div => "/" end.
Definition op_precedence (op : operator) : nat :=
  match op with Add | Sub => P_ARITH | Mult | Div => P_TERM end.

(** [require_parens]: parentheses when the context binds tighter. *)
Definition parens_if (b : bool) (s : string) : string :=
  if b then "(" +:+ s +:+ ")" else s.

Definition unparse_constant (c : constant) : string :=
  match c with CInt z => pretty z | CNone => "None" end.

(** [ctx] is the precedence the parent node set for this one. *)
Fixpoint unparse_expr (ctx : nat) (e : expr) : string :=
  match e with
  | Constant c => unparse_constant c
  | Name x => x
  | UnaryOp USub operand =>
      parens_if (P_FACTOR <? ctx)%nat ("-" +:+ unparse_expr P_FACTOR operand)
  | BinOp l op r =>
      let p := op_precedence op in
      parens_if (p <? ctx)%nat
        (unparse_expr p l +:+ " " +:+ op_text op +:+ " " +:+ unparse_expr (S p) r)
  | Call f args =>
      unparse_expr P_ATOM f +:+ "(" +:+ join ", " (map (unparse_expr P_TEST) args) +:+ ")"
  | OtherExpr _ text => text
  end.

Definition spaces (n : nat) : string :=
  String.concat EmptyString (replicate n "    ").

(** The lines of a statement at nesting depth [depth].  (The parser gives
    no [Raise] with a cause and no exception.) *)
Fixpoint unparse_stmt (depth : nat) (s : stmt) : list string :=
  match s with
  | Expr v => [spaces depth +:+ unparse_expr P_TEST v]
  | Assign targets v =>
      [spaces depth
       +:+ String.concat EmptyString (map (λ t, unparse_expr P_TEST t +:+ " = ") targets)
       +:+ unparse_expr P_TEST v]
  | AugAssign t op v =>
      [spaces depth +:+ unparse_expr P_TEST t +:+ " " +:+ op_text op +:+ "= "
       +:+ unparse_expr P_TEST v]
  | AnnAssign t ann v simple =>
      [spaces depth
       +:+ parens_if (negb simple && match t with Name _ => true | _ => false end)
             (unparse_expr P_TEST t)
       +:+ ": " +:+ unparse_expr P_TEST ann
       +:+ match v with Some v => " = " +:+ unparse_expr P_TEST v | None => EmptyString end]
  | For t it b =>
      (spaces depth +:+ "for " +:+ unparse_expr P_TEST t +:+ " in "
       +:+ unparse_expr P_TEST it +:+ ":")
      :: concat (map (unparse_stmt (S depth)) b)
  | Raise None _ => [spaces depth +:+ "raise"]
  | Raise (Some e) c =>
      [spaces depth +:+ "raise " +:+ unparse_expr P_TEST e
       +:+ match c with Some c => " from " +:+ unparse_expr P_TEST c | None => EmptyString end]
  | Pass => [spaces depth +:+ "pass"]
  | OtherStmt _ text => [spaces depth +:+ text]
  end.

Definition unparse_text (n : node) : string :=
  match n with
  | NMod m => join nl (concat (map (unparse_stmt 0) (body m)))
  | NStmt s => join nl (unparse_stmt 0 s)
  | NExpr e => unparse_expr P_TEST e
  end.

(** [ast.unparse(n)]: the text of a tree of the fragment. *)
Definition unparse (n : node) : exn + string :=
  if shallow n then inr (unparse_text n) else inl outside_fragment.

(** ** Values and the builtins *)

Inductive value : Type :=
| VNone
| VInt (z : Z)
| VRange (stop : Z)                 (* [range(0, stop)] *)
| VBuiltin (name : string)          (* a function or a class of [builtins] *)
| VExc (e : exn).                   (* an instance of an exception class *)

Abbreviation state := (gmap string value * world)%type.

(** The exception classes of the fragment, each with its resolution order. *)
Definition exception_classes : list (string * list string) :=
  [("BaseException", ["BaseException"; "object"]);
   ("Exception", ["Exception"; "BaseException"; "object"]);
   ("SystemExit", ["SystemExit"; "BaseException"; "object"]);
   ("KeyboardInterrupt", ["KeyboardInterrupt"; "BaseException"; "object"]);
   ("GeneratorExit", ["GeneratorExit"; "BaseException"; "object"]);
   ("ArithmeticError", ["ArithmeticError"; "Exception"; "BaseException"; "object"]);
   ("ZeroDivisionError",
    ["ZeroDivisionError"; "ArithmeticError"; "Exception"; "BaseException"; "object"]);
   ("ValueError", ["ValueError"; "Exception"; "BaseException"; "object"]);
   ("TypeError", ["TypeError"; "Exception"; "BaseException"; "object"]);
   ("RuntimeError", ["RuntimeError"; "Exception"; "BaseException"; "object"])].

Definition class_mro (name : string) : option (list string) :=
  (λ c : nat * (string * list string), c.2.2)
    <$> list_find (λ c : string * list string, c.1 = name) exception_classes.

(** The other names of [builtins] the fragment knows. *)
Definition other_builtins : list string :=
  ["print"; "range"; "int"; "float"; "str"; "bool"; "object"].

Definition is_builtin (x : string) : bool :=
  bool_decide (x ∈ other_builtins) || bool_decide (is_Some (class_mro x)).

(** Names such as [__builtins__] and [__annotations__], which the
    interpreter itself reads and writes, are left out of the fragment. *)
Definition is_dunder (x : string) : bool := String.prefix "__" x.

(** A name is looked up in the globals, then in the builtins. *)
Definition lookup_name (x : string) : M state value :=
  λ st,
    if is_dunder x then (st, inl outside_fragment)
    else match st.1 !! x with
         | Some v => (st, inr v)
         | None => if is_builtin x then (st, inr (VBuiltin x)) else (st, inl outside_fragment)
         end.

Definition store (x : string) (v : value) : M state unit :=
  λ st,
    if is_dunder x then (st, inl outside_fragment)
    else ((<[x := v]> st.1, st.2), inr tt).

Definition in_fragment (v : value) : bool :=
  match v with VInt z | VRange z => small z | _ => true end.

Definition int_value (z : Z) : M state value :=
  if small z then mret (VInt z) else raise outside_fragment.

(** [str(v)]. *)
Definition str_value (v : value) : string :=
  match v with
  | VNone => "None"
  | VInt z => pretty z
  | VRange stop => "range(0, " +:+ pretty stop +:+ ")"
  | VBuiltin name =>
      if String.eqb name "print" then "<built-in function print>"
      else "<class '" +:+ name +:+ "'>"
  | VExc e => exc_str e
  end.

(** A call of an exception class: [str] of the instance is empty
    with no argument and the text of the argument with one. *)
Definition instantiate (cls : string) (args : list value) : M state exn :=
  match class_mro cls, args with
  | Some mro, [] => mret (Exn cls mro EmptyString None)
  | Some mro, [v] =>
      if in_fragment v then mret (Exn cls mro (str_value v) None)
      else raise outside_fragment
  | _, _ => raise outside_fragment
  end.

Definition ZeroDivisionError : exn :=
  builtin_error "ZeroDivisionError" ["ArithmeticError"] "division by zero".

Definition binop (op : operator) (a b : value) : M state value :=
  match a, b with
  | VInt x, VInt y =>
      match op with
      | Add => int_value (x + y)
      | Sub => int_value (x - y)
      | Mult => int_value (x * y)
      | Div => if (y =? 0) then raise ZeroDivisionError else raise outside_fragment
      end
  | _, _ => raise outside_fragment
  end.

Definition call (f : value) (args : list value) : M state value :=
  match f with
  | VBuiltin name =>
      if String.eqb name "print" then
        if forallb in_fragment args then
          on_world (write_stdout (join " " (map str_value args) +:+ nl));; mret VNone
        else raise outside_fragment
      else if String.eqb name "range" then
        match args with
        | [VInt stop] => if small stop then mret (VRange stop) else raise outside_fragment
        | _ => raise outside_fragment
        end
      else e ← instantiate name args; mret (VExc e)
  | _ => raise outside_fragment
  end.

(** ** Evaluation and execution *)

Fixpoint eval_expr (e : expr) : M state value :=
  match e with
  | Constant (CInt z) => int_value z
  | Constant CNone => mret VNone
  | Name x => lookup_name x
  | UnaryOp USub a =>
      v ← eval_expr a;
      match v with VInt z => int_value (- z) | _ => raise outside_fragment end
  | BinOp l op r => a ← eval_expr l; b ← eval_expr r; binop op a b
  | Call f args =>
      fv ← eval_expr f;
      vs ← (fix go (l : list expr) : M state (list value) :=
              match l with
              | [] => mret []
              | a :: l' => v ← eval_expr a; vs ← go l'; mret (v :: vs)
              end) args;
      call fv vs
  | OtherExpr _ _ => raise outside_fragment
  end.

(** The exception an operand of [raise] stands for. *)
Definition as_exception (what : string) (v : value) : M state exn :=
  match v with
  | VExc e => mret e
  | VBuiltin name =>
      match class_mro name with
      | Some _ => instantiate name []
      | None => raise (builtin_error "TypeError" [] what)
      end
  | _ => raise (builtin_error "TypeError" [] what)
  end.

Definition with_cause (e : exn) (c : option exn) : exn :=
  Exn (exc_type e) (exc_mro e) (exc_str e) c.

Fixpoint for_each (x : string) (ks : list Z) (run : M state unit) : M state unit :=
  match ks with
  | [] => mret tt
  | k :: ks' => store x (VInt k);; run;; for_each x ks' run
  end.

Fixpoint exec_stmt (s : stmt) : M state unit :=
  match s with
  | Expr v => eval_expr v;; mret tt
  | Assign targets v =>
      x ← eval_expr v;
      (fix go (ts : list expr) : M state unit :=
         match ts with
         | [] => mret tt
         | Name t :: ts' => store t x;; go ts'
         | _ => raise outside_fragment
         end) targets
  | AugAssign (Name t) op v =>
      a ← (λ st, match st.1 !! t with
                 | Some a => (st, inr a)
                 | None => (st, inl outside_fragment)
                 end);
      b ← eval_expr v;
      r ← binop op a b;
      store t r
  | AnnAssign (Name t) (Name ann) v true =>
      match v with Some v => x ← eval_expr v; store t x | None => mret tt end;;
      lookup_name ann;; mret tt
  | For (Name t) it b =>
      r ← eval_expr it;
      match r with
      | VRange stop =>
          for_each t (seqZ 0 stop)
            ((fix go (l : list stmt) : M state unit :=
                match l with
                | [] => mret tt
                | s' :: l' => exec_stmt s';; go l'
                end) b)
      | _ => raise outside_fragment
      end
  | Raise None _ =>
      raise (builtin_error "RuntimeError" [] "No active exception to reraise")
  | Raise (Some e) c =>
      v ← eval_expr e;
      cv ← match c with
           | Some c => eval_expr c
           | None => mret VNone
           end;
      ex ← as_exception "exceptions must derive from BaseException" v;
      match cv with
      | VNone => raise ex
      | _ =>
          cause ← as_exception "exception causes must derive from BaseException" cv;
          raise (with_cause ex (Some cause))
      end
  | Pass => mret tt
  | _ => raise outside_fragment
  end.

Fixpoint exec_stmts (l : list stmt) : M state unit :=
  match l with
  | [] => mret tt
  | s :: l' => exec_stmt s;; exec_stmts l'
  end.

(** [exec(src, globals)] and [eval(src, globals)]. *)
Definition exec_source (src : string) : M state unit :=
  match parse_module src with
  | Some m => exec_stmts (body m)
  | None => raise outside_fragment
  end.

Definition eval_source (src : string) : M state value :=
  match parse_expression src with
  | Some e => eval_expr e
  | None => raise outside_fragment
  end.

(** [traceback.format_exception_only] for an exception that is not a
    syntax error and carries no note: one line, the name of the class, then
    a colon and [str(exc)] unless that is empty.  The cause of the exception
    is not part of it. *)
Definition format_exception_only (e : exn) : list string :=
  [match exc_str e with
   | EmptyString => exc_type e +:+ nl
   | msg => exc_type e +:+ ": " +:+ msg +:+ nl
   end].

(** ** [json.loads]

    The fragment: one string, number or literal, with JSON whitespace around
    it.  An array, an object, an escape for a code point above 255 and an
    integer that is not [small] are outside it. *)

(** [exc_str] holds the fixed part of the message; what the library appends
    to it (the place in the text) is left out. *)
Definition JSONDecodeError (msg : string) : exn :=
  Exn "json.decoder.JSONDecodeError"
      ["JSONDecodeError"; "ValueError"; "Exception"; "BaseException"; "object"] msg None.

Definition is_json_space (c : ascii) : bool :=
  let n := N_of_ascii c in ((n =? 32) || (n =? 9) || (n =? 10) || (n =? 13))%N.

Fixpoint skip_space (s : string) : string :=
  match s with
  | String c s' => if is_json_space c then skip_space s' else s
  | EmptyString => s
  end.

(** The digits a text starts with, and the rest of it. *)
Fixpoint span_digits (s : string) : string * string :=
  match s with
  | String c s' =>
      if is_digit c then let '(ds, r) := span_digits s' in (String c ds, r)
      else (EmptyString, s)
  | EmptyString => (EmptyString, s)
  end.

Fixpoint digits_value (ds : string) (acc : Z) : Z :=
  match ds with
  | String c ds' => digits_value ds' (10 * acc + digit_value c)
  | EmptyString => acc
  end.

Definition hex_value (c : ascii) : option Z :=
  let n := Z.of_N (N_of_ascii c) in
  if (48 <=? n) && (n <=? 57) then Some (n - 48)
  else if (65 <=? n) && (n <=? 70) then Some (n - 55)
  else if (97 <=? n) && (n <=? 102) then Some (n - 87)
  else None.

Definition hex4 (a b c d : ascii) : option Z :=
  x ← hex_value a; y ← hex_value b; z ← hex_value c; w ← hex_value d;
  Some (((x * 16 + y) * 16 + z) * 16 + w).

(** The character an escape other than [\u] stands for. *)
Definition backslash (c : ascii) : option ascii :=
  if Ascii.eqb c "034" then Some "034"%char
  else if Ascii.eqb c "\" then Some "\"%char
  else if Ascii.eqb c "/" then Some "/"%char
  else if Ascii.eqb c "b" then Some "008"%char
  else if Ascii.eqb c "f" then Some "012"%char
  else if Ascii.eqb c "n" then Some "010"%char
  else if Ascii.eqb c "r" then Some "013"%char
  else if Ascii.eqb c "t" then Some "009"%char
  else None.

Definition push (c : ascii) (r : exn + string * string) : exn + string * string :=
  match r with
  | inr (t, rest) => inr (String c t, rest)
  | inl e => inl e
  end.

(** The text of a string literal, read from after its opening quote, and
    what follows its closing quote. *)
Fixpoint scan_string (s : string) : exn + string * string :=
  match s with
  | EmptyString => inl (JSONDecodeError "Unterminated string starting at")
  | String c r =>
      if Ascii.eqb c "034" then inr (EmptyString, r)
      else if (N_of_ascii c <? 32)%N then inl (JSONDecodeError "Invalid control character at")
      else if Ascii.eqb c "\" then
        match r with
        | EmptyString => inl (JSONDecodeError "Unterminated string starting at")
        | String e r' =>
            if Ascii.eqb e "u" then
              match r' with
              | String h1 (String h2 (String h3 (String h4 r''))) =>
                  match hex4 h1 h2 h3 h4 with
                  | Some n =>
                      if n <? 256 then push (ascii_of_N (Z.to_N n)) (scan_string r'')
                      else inl outside_fragment
                  | None => inl (JSONDecodeError "Invalid \uXXXX escape")
                  end
              | _ => inl (JSONDecodeError "Invalid \uXXXX escape")
              end
            else
              match backslash e with
              | Some ch => push ch (scan_string r')
              | None => inl (JSONDecodeError "Invalid \escape")
              end
        end
      else push c (scan_string r)
  end.

(** A fraction or an exponent at the head of [s], if there is one. *)
Definition span_fraction (s : string) : string * string :=
  match s with
  | String c r =>
      if Ascii.eqb c "." then
        match span_digits r with
        | (EmptyString, _) => (EmptyString, s)
        | (ds, r') => (String c ds, r')
        end
      else (EmptyString, s)
  | EmptyString => (EmptyString, s)
  end.

Definition span_exponent (s : string) : string * string :=
  match s with
  | String c r =>
      if Ascii.eqb c "e" || Ascii.eqb c "E" then
        let '(sign, r1) :=
          match r with
          | String g r1 =>
              if Ascii.eqb g "+" || Ascii.eqb g "-" then (String g EmptyString, r1)
              else (EmptyString, r)
          | EmptyString => (EmptyString, r)
          end in
        match span_digits r1 with
        | (EmptyString, _) => (EmptyString, s)
        | (ds, r') => (String c (sign +:+ ds), r')
        end
      else (EmptyString, s)
  | EmptyString => (EmptyString, s)
  end.

(** A number at the head of [s], after its sign. *)
Definition scan_number (negative : bool) (s : string) : exn + pyobj * string :=
  let '(ds, r) :=
    match s with
    | String c r => if Ascii.eqb c "0" then (String c EmptyString, r) else span_digits s
    | EmptyString => (EmptyString, s)
    end in
  match ds with
  | EmptyString => inl (JSONDecodeError "Expecting value")
  | _ =>
      let '(frac, r1) := span_fraction r in
      let '(exp, r2) := span_exponent r1 in
      match frac +:+ exp with
      | EmptyString =>
          let z := digits_value ds 0 in
          if small z then inr (PyInt (if negative then - z else z), r2)
          else inl outside_fragment
      | tail => inr (PyFloat ((if negative then "-" else EmptyString) +:+ ds +:+ tail), r2)
      end
  end.

Definition literal (word : string) (v : pyobj) (s : string) : exn + pyobj * string :=
  if String.prefix word s
  then inr (v, String.substring (String.length word) (String.length s) s)
  else inl (JSONDecodeError "Expecting value").

(** One value at the head of [s]. *)
Definition scan_value (s : string) : exn + pyobj * string :=
  match s with
  | EmptyString => inl (JSONDecodeError "Expecting value")
  | String c r =>
      if Ascii.eqb c "034" then
        match scan_string r with
        | inr (t, rest) => inr (PyStr t, rest)
        | inl e => inl e
        end
      else if Ascii.eqb c "[" || Ascii.eqb c "{" then inl outside_fragment
      else if Ascii.eqb c "n" then literal "null" PyNone s
      else if Ascii.eqb c "t" then literal "true" (PyBool true) s
      else if Ascii.eqb c "f" then literal "false" (PyBool false) s
      else if Ascii.eqb c "N" then literal "NaN" (PyFloat "NaN") s
      else if Ascii.eqb c "I" then literal "Infinity" (PyFloat "Infinity") s
      else if Ascii.eqb c "-" then
        if String.prefix "-Infinity" s then literal "-Infinity" (PyFloat "-Infinity") s
        else scan_number true r
      else scan_number false s
  end.

Definition loads (s : string) : exn + pyobj :=
  match scan_value (skip_space s) with
  | inr (v, rest) =>
      match skip_space rest with
      | EmptyString => inr v
      | _ => inl (JSONDecodeError "Extra data")
      end
  | inl e => inl e
  end.

(** ** The runtime *)

Definition runtime : Runtime :=
  Build_Runtime
    value (gmap string value) ∅
    loads
    (λ src, match parse_module src with Some m => inr m | None => inl outside_fragment end)
    unparse
    exec_source
    eval_source
    (λ v, if in_fragment v then mret (str_value v) else raise outside_fragment)
    (λ v, match v with VNone => true | _ => false end)
    format_exception_only.

(** A process starts with nothing written. *)
Definition w0 : world := World EmptyString EmptyString.

(** The JSON encoding of a text that needs no escape. *)
Definition quoted (src : string) : string := dq +:+ src +:+ dq.

End Ref.

(** * JSON texts

    The grammar of JSON (RFC 8259) as a recognizer: what it is for a text to
    be valid JSON, whatever a decoder makes of it. *)
Module Json.

Definition code (c : ascii) : N := N_of_ascii c.

(** Whitespace: space, tab, line feed, carriage return. *)
Definition is_ws (c : ascii) : bool :=
  ((code c =? 32) || (code c =? 9) || (code c =? 10) || (code c =? 13))%N.

Fixpoint skip_ws (s : string) : string :=
  match s with
  | String c s' => if is_ws c then skip_ws s' else s
  | EmptyString => s
  end.

Definition is_digit (c : ascii) : bool := ((48 <=? code c) && (code c <=? 57))%N.

Definition is_hex (c : ascii) : bool :=
  (is_digit c || (65 <=? code c) && (code c <=? 70) || (97 <=? code c) && (code c <=? 102))%N.

Fixpoint skip_digits (s : string) : string :=
  match s with
  | String c s' => if is_digit c then skip_digits s' else s
  | EmptyString => s
  end.

(** One digit or more at the head of [s]: what follows them. *)
Definition digits1 (s : string) : option string :=
  match s with
  | String c s' => if is_digit c then Some (skip_digits s') else None
  | EmptyString => None
  end.

(** The characters an escape may name: quote, backslash, slash, b, f, n, r, t. *)
Definition is_escape (c : ascii) : bool :=
  ((code c =? 34) || (code c =? 92) || (code c =? 47) || (code c =? 98)
   || (code c =? 102) || (code c =? 110) || (code c =? 114) || (code c =? 116))%N.

(** A string, read from after its opening quote: what follows its closing
    quote. *)
Fixpoint string_rest (s : string) : option string :=
  match s with
  | EmptyString => None
  | String c r =>
      if (code c =? 34)%N then Some r
      else if (code c <? 32)%N then None
      else if (code c =? 92)%N then
        match r with
        | EmptyString => None
        | String e r' =>
            if (code e =? 117)%N then
              match r' with
              | String h1 (String h2 (String h3 (String h4 r''))) =>
                  if is_hex h1 && is_hex h2 && is_hex h3 && is_hex h4
                  then string_rest r'' else None
              | _ => None
              end
            else if is_escape e then string_rest r' else None
        end
      else string_rest r
  end.

(** A number: an optional minus, an integer part with no leading zero, an
    optional fraction, an optional exponent. *)
Definition fraction_rest (s : string) : string :=
  match s with
  | String c r =>
      if (code c =? 46)%N then match digits1 r with Some r' => r' | None => s end else s
  | EmptyString => s
  end.

Definition exponent_rest (s : string) : string :=
  match s with
  | String c r =>
      if (code c =? 101)%N || (code c =? 69)%N then
        let r1 :=
          match r with
          | String g r1 => if (code g =? 43)%N || (code g =? 45)%N then r1 else r
          | EmptyString => r
          end in
        match digits1 r1 with Some r' => r' | None => s end
      else s
  | EmptyString => s
  end.

Definition unsigned_rest (s : string) : option string :=
  match s with
  | String c r =>
      if (code c =? 48)%N then Some (exponent_rest (fraction_rest r))
      else if is_digit c then Some (exponent_rest (fraction_rest (skip_digits r)))
      else None
  | EmptyString => None
  end.

Definition number_rest (s : string) : option string :=
  unsigned_rest
    match s with
    | String c r => if (code c =? 45)%N then r else s
    | EmptyString => s
    end.

Definition word_rest (word s : string) : option string :=
  if String.prefix word s
  then Some (String.substring (String.length word) (String.length s) s)
  else None.

(** A value at the head of [s], which starts with no whitespace: what
    follows it.  [n] bounds the nesting. *)
Fixpoint value_rest (n : nat) (s : string) : option string :=
  match n with
  | O => None
  | S n =>
      match s with
      | EmptyString => None
      | String c r =>
          if (code c =? 34)%N then string_rest r
          else if (code c =? 91)%N then
            match skip_ws r with
            | String d r' => if (code d =? 93)%N then Some r' else elements_rest n (skip_ws r)
            | EmptyString => None
            end
          else if (code c =? 123)%N then
            match skip_ws r with
            | String d r' => if (code d =? 125)%N then Some r' else members_rest n (skip_ws r)
            | EmptyString => None
            end
          else if (code c =? 116)%N then word_rest "true" s
          else if (code c =? 102)%N then word_rest "false" s
          else if (code c =? 110)%N then word_rest "null" s
          else number_rest s
      end
  end
with elements_rest (n : nat) (s : string) : option string :=
  match n with
  | O => None
  | S n =>
      r ← value_rest n s;
      match skip_ws r with
      | String d r' =>
          if (code d =? 44)%N then elements_rest n (skip_ws r')
          else if (code d =? 93)%N then Some r'
          else None
      | EmptyString => None
      end
  end
with members_rest (n : nat) (s : string) : option string :=
  match n with
  | O => None
  | S n =>
      match s with
      | String q r =>
          if (code q =? 34)%N then
            r1 ← string_rest r;
            match skip_ws r1 with
            | String d r2 =>
                if (code d =? 58)%N then
                  r3 ← value_rest n (skip_ws r2);
                  match skip_ws r3 with
                  | String d' r4 =>
                      if (code d' =? 44)%N then members_rest n (skip_ws r4)
                      else if (code d' =? 125)%N then Some r4
                      else None
                  | EmptyString => None
                  end
                else None
            | EmptyString => None
            end
          else None
      | EmptyString => None
      end
  end.

(** A JSON text: one value with whitespace around it. *)
Definition valid (s : string) : bool :=
  match value_rest (2 * String.length s + 2) (skip_ws s) with
  | Some r => match skip_ws r with EmptyString => true | _ => false end
  | None => false
  end.

End Json.

(** ** The reference decoder against the grammar *)

(** The values [json.loads] gives for the words it takes beyond JSON. *)
Definition beyond_json (v : pyobj) : Prop :=
  v = PyFloat "NaN" ∨ v = PyFloat "Infinity" ∨ v = PyFloat "-Infinity".

(** [agrees r rest0]: a scan of the decoder that ended as [r], where the
    recognizer gives [rest0]: both stop at the same place, or the decoder
    left its fragment, or it rejects what the recognizer rejects. *)
Definition agrees {A} (r : exn + A * string) (rest0 : option string) : Prop :=
  match r with
  | inr (_, rest) => rest0 = Some rest
  | inl e =>
      e = Ref.outside_fragment
      ∨ (isinstance e "JSONDecodeError" = true ∧ rest0 = None)
  end.

(** The same for a value, which may be one of the words beyond JSON. *)
Definition value_agrees (r : exn + pyobj * string) (rest0 : option string) : Prop :=
  match r with
  | inr (v, rest) => rest0 = Some rest ∨ (beyond_json v ∧ rest0 = None)
  | inl e =>
      e = Ref.outside_fragment
      ∨ (isinstance e "JSONDecodeError" = true ∧ rest0 = None)
  end.

(** * Properties *)

(** ** Text *)

Lemma append_empty_r (s : string) : s +:+ EmptyString = s.
Proof.
  induction s as [|c s IH]; [reflexivity|].
  change (String c (s +:+ EmptyString) = String c s). by f_equal.
Qed.

Lemma lstrip_empty_iff (s : string) : lstrip s = EmptyString ↔ all_space s = true.
Proof.
  induction s as [|c s IH]; simpl; [done|].
  destruct (isspace c); simpl; [exact IH | split; discriminate].
Qed.

Lemma lstrip_head (s : string) c r : lstrip s = String c r → isspace c = false.
Proof.
  induction s as [|d s IH]; simpl; [discriminate|].
  destruct (isspace d) eqn:Hd; [exact IH|].
  intros [= -> ->]. exact Hd.
Qed.

Lemma rstrip_head c r : isspace c = false → rstrip (String c r) ≠ EmptyString.
Proof. intros Hc. simpl. destruct (rstrip r); [by rewrite Hc | discriminate]. Qed.

(** [strip] empties exactly the texts made of whitespace. *)
Lemma strip_empty_iff (s : string) : strip s = EmptyString ↔ all_space s = true.
Proof.
  rewrite <- lstrip_empty_iff. unfold strip. split.
  - destruct (lstrip s) as [|c r] eqn:E; [done|].
    intros H. by apply rstrip_head in H; [|eapply lstrip_head].
  - by intros ->.
Qed.

Lemma strip_eqb (s : string) : String.eqb (strip s) EmptyString = all_space s.
Proof.
  destruct (all_space s) eqn:E.
  - apply strip_empty_iff in E. by rewrite E.
  - apply String.eqb_neq. intros H. apply strip_empty_iff in H. congruence.
Qed.

(** ** The runner, over any runtime *)

Section RunnerFacts.
Context (rt : Runtime).

Abbreviation state := (namespace rt * world)%type.

Lemma print_stderr_no_end (s : string) (w : world) :
  print_stderr s EmptyString w = write_stderr s w.
Proof. unfold print_stderr. by rewrite append_empty_r. Qed.

(** A computation followed by "return nothing" is the computation. *)
Lemma then_ret_tt {S} (m : M S unit) (st : S) : (m;; mret tt) st = m st.
Proof.
  unfold mbind, M_bind, mret, M_ret.
  destruct (m st) as [st' [e|[]]]; reflexivity.
Qed.

(** [main] at an input with no code in it. *)
Lemma main_blank raw_code w :
  blank raw_code = true →
  main rt raw_code w = (write_stderr ("Error: no code to execute" +:+ nl) w, inr 1).
Proof.
  destruct raw_code as [raw|]; simpl; intros Hb; [|reflexivity].
  by rewrite strip_eqb, Hb.
Qed.

(** [main] at an input it decodes: the [try] statement around [exec_code]. *)
Lemma main_decoded raw code w :
  all_space raw = false →
  json_loads rt raw = inr code →
  main rt (Some raw) w = report rt (exec_code rt code (empty_namespace rt, w)).
Proof.
  intros Hb Hj. unfold main, report. rewrite strip_eqb, Hb, Hj.
  destruct (exec_code rt code (empty_namespace rt, w)) as [[g w'] [exc|[]]]; reflexivity.
Qed.

(** [exec_code] once the source is parsed, its last statement looked at and
    the body unparsed. *)
Lemma exec_code_split code a residual last_expression text st :
  ast_parse rt code = inr a →
  split_last rt (body a) = inr (residual, last_expression) →
  ast_unparse rt (NMod (Module_ residual)) = inr text →
  exec_code rt code st = (py_exec rt text;; echo rt last_expression) st.
Proof.
  intros Hp Hs Hu. unfold exec_code.
  unfold mbind at 1 2 3, M_bind, lift. by rewrite Hp, Hs, Hu.
Qed.

(** [exec_code] once the source is parsed: the look at the last statement,
    the unparsing of the body, its execution and the echo. *)
Lemma exec_code_parsed code a st :
  ast_parse rt code = inr a →
  exec_code rt code st
  = ('(residual, last_expression) ← lift (split_last rt (body a));
     text ← lift (ast_unparse rt (NMod (Module_ residual)));
     py_exec rt text;; echo rt last_expression) st.
Proof.
  intros Hp. unfold exec_code. unfold mbind at 1, M_bind, lift. by rewrite Hp.
Qed.

(** An exception of the parser leaves [exec_code] as it is, with no effect. *)
Lemma exec_code_parse_error code e st :
  ast_parse rt code = inl e → exec_code rt code st = (st, inl e).
Proof. intros Hp. unfold exec_code, mbind, M_bind, lift. by rewrite Hp. Qed.

(** What a last statement that [echoes] makes of the body. *)
Lemma split_last_echoes b s removed target :
  echoes s removed target →
  split_last rt (b ++ [s])
  = (text ← ast_unparse rt target; inr (if removed then b else b ++ [s], Some text)).
Proof.
  intros He. unfold split_last. rewrite last_snoc.
  destruct He; [by rewrite removelast_last | reflexivity..].
Qed.

(** A body that ends with a statement the dispatch tests for. *)
Lemma not_other_echoes s :
  other_kind s = false →
  (∃ v, s = Assign [] v) ∨ ∃ removed target, echoes s removed target.
Proof.
  destruct s as [v|[|t ts] v|t op v|t ann v simple|t it bd|e c| |k txt];
    try discriminate; intros _; [right|by left; eexists|right..];
    eexists _, _; constructor.
Qed.

Lemma split_last_other b :
  ends_with_other b = true → split_last rt b = inr (b, None).
Proof.
  unfold ends_with_other, split_last.
  destruct (last b) as [s|]; [|done].
  by destruct s.
Qed.

End RunnerFacts.

(** ** The claims that hold over any runtime *)

Section RunnerClaims.
Context (rt : Runtime).

(** C5. When the input is absent or holds only whitespace, [main] writes the
    line [Error: no code to execute] to the diagnostic stream and returns 1.
    Standard output is left as it was, and the outcome is the same with any
    other decoder, parser and interpreter: none of them takes part. *)
Theorem main_no_code (raw_code : option string) (w : world) :
  blank raw_code = true →
  main rt raw_code w = (write_stderr ("Error: no code to execute" +:+ nl) w, inr 1)
  ∧ (∀ rt' : Runtime, main rt' raw_code w = main rt raw_code w).
Proof.
  intros Hb. split; [by apply main_blank|].
  intros rt'. by rewrite !main_blank.
Qed.

(** C6, as amended. When the input is not blank and [json.loads] rejects it
    with a [JSONDecodeError] (the [except] clause of line 30 matches), [main]
    writes the line [Error: JSON decode failed] to the diagnostic stream and
    returns 1; [exec_code] is not reached and standard output is left as it
    was. *)
Theorem main_decode_failed (raw : string) (e : exn) (w : world) :
  blank (Some raw) = false →
  json_loads rt raw = inl e →
  isinstance e "JSONDecodeError" = true →
  main rt (Some raw) w = (write_stderr ("Error: JSON decode failed" +:+ nl) w, inr 1).
Proof.
  intros Hb Hj He. simpl in Hb. unfold main. by rewrite strip_eqb, Hb, Hj, He.
Qed.

(** C10. When the input decodes to an object that is not a text, the
    [JSON decode failed] line is not written: [ast.parse] raises the
    [TypeError] of [compile], which the last [except] clause formats on the
    diagnostic stream, and [main] returns 1. *)
Theorem main_decoded_not_text (raw : string) (code : pyobj) (w : world) :
  blank (Some raw) = false →
  json_loads rt raw = inr code →
  is_str code = false →
  main rt (Some raw) w
  = (write_stderr (join nl (format_exception_only rt compile_TypeError)) w, inr 1).
Proof.
  intros Hb Hj Hs. simpl in Hb. rewrite (main_decoded rt raw code w Hb Hj).
  rewrite exec_code_parse_error with (e := compile_TypeError).
  - simpl. by rewrite print_stderr_no_end.
  - by destruct code.
Qed.


(** C1, as amended. With the program parsed as [b ++ [s]]: an expression
    statement [s] is taken out of the body, which is executed without it, and
    is then evaluated for the echo; an assignment, annotated assignment or
    augmented assignment [s] stays in the body that is executed, and its
    (first) target is then evaluated for the echo. [ast.unparse] gives the
    text of the echo first and the text of the body next; when it raises on
    either, its exception leaves [exec_code] and nothing is executed. *)
Theorem exec_code_last_statement
    (code : pyobj) (b : list stmt) (s : stmt) (removed : bool) (target : node)
    (st : namespace rt * world) :
  ast_parse rt code = inr (Module_ (b ++ [s])) →
  echoes s removed target →
  (removed = true ↔ ∃ v, s = Expr v)
  ∧ exec_code rt code st
    = (echo_text ← lift (ast_unparse rt target);
       body_text ← lift (ast_unparse rt (NMod (Module_ (if removed then b else b ++ [s]))));
       py_exec rt body_text;;
       echo rt (Some echo_text)) st.
Proof.
  intros Hp He. split.
  - inversion He; subst; split; try discriminate; eauto; intros [? [=]].
  - rewrite (exec_code_parsed rt code _ st Hp). simpl.
    rewrite (split_last_echoes rt b s removed target He).
    unfold mbind at 1 4, M_bind, lift.
    by destruct (ast_unparse rt target).
Qed.

(** C8. When the echo target evaluates to [None], the runner writes no
    line of its own: the streams [main] leaves are the streams execution and
    evaluation left, and [main] returns 0. *)
Theorem none_is_not_echoed
    (raw src : string) (a : ast_module) (residual : list stmt) (target text : string)
    (st1 : namespace rt * world) (g2 : namespace rt) (w w2 : world) (v : value rt) :
  blank (Some raw) = false →
  json_loads rt raw = inr (PyStr src) →
  ast_parse_str rt src = inr a →
  split_last rt (body a) = inr (residual, Some target) →
  truthy target = true →
  ast_unparse rt (NMod (Module_ residual)) = inr text →
  py_exec rt text (empty_namespace rt, w) = (st1, inr tt) →
  py_eval rt target st1 = ((g2, w2), inr v) →
  is_None rt v = true →
  main rt (Some raw) w = (w2, inr 0).
Proof.
  intros Hb Hj Hp Hs Ht Hu Hx Hv Hn. simpl in Hb.
  rewrite (main_decoded rt raw _ w Hb Hj).
  rewrite (exec_code_split rt (PyStr src) a residual (Some target) text _ Hp Hs Hu).
  unfold mbind, M_bind. rewrite Hx. simpl. rewrite Ht.
  unfold mbind, M_bind. by rewrite Hv, Hn.
Qed.

(** C9. When the body is empty or its last statement is of none of the
    four classes, no echo text is derived, [exec_code] is the unparsing and
    the execution of the whole body and nothing more, and [main] reports on
    that alone. *)
Theorem no_echo_for_other_statements
    (raw src : string) (a : ast_module) (w : world) :
  blank (Some raw) = false →
  json_loads rt raw = inr (PyStr src) →
  ast_parse_str rt src = inr a →
  ends_with_other (body a) = true →
  split_last rt (body a) = inr (body a, None)
  ∧ (∀ st, exec_code rt (PyStr src) st
           = (text ← lift (ast_unparse rt (NMod a)); py_exec rt text) st)
  ∧ main rt (Some raw) w
    = report rt ((text ← lift (ast_unparse rt (NMod a)); py_exec rt text)
                   (empty_namespace rt, w)).
Proof.
  intros Hb Hj Hp Ho. simpl in Hb.
  pose proof (split_last_other rt (body a) Ho) as Hs.
  assert (∀ st, exec_code rt (PyStr src) st
                = (text ← lift (ast_unparse rt (NMod a)); py_exec rt text) st) as Hx.
  { intros st. rewrite (exec_code_parsed rt (PyStr src) a st Hp), Hs.
    destruct a as [b]; simpl. unfold mbind at 1 2 4, M_bind, lift.
    destruct (ast_unparse rt (NMod (Module_ b))) as [e|text]; [reflexivity|].
    apply then_ret_tt. }
  split; [exact Hs|]. split; [exact Hx|].
  by rewrite (main_decoded rt raw _ w Hb Hj), Hx.
Qed.

End RunnerClaims.

(** ** The reference runtime at the programs of the specification *)

Section Examples.
Import Ref.

(** Echoing a name reads the namespace and changes nothing. *)
Lemma lookup_name_pure (x : string) (st : Ref.state) : (lookup_name x st).1 = st.
Proof.
  unfold lookup_name. destruct (is_dunder x); [reflexivity|].
  destruct (st.1 !! x); [reflexivity|]. by destruct (is_builtin x).
Qed.

(** An assignment to a name, then the echo of that name: the right-hand side
    is evaluated once, its value is stored, and the echo reads it back. *)
Lemma assign_then_echo (x : string) (e : expr) (st : Ref.state) :
  is_dunder x = false →
  (exec_stmt (Assign [Name x] e);; eval_expr (Name x)) st
  = (v ← eval_expr e; store x v;; mret v) st.
Proof.
  intros Hx. unfold mbind, M_bind. simpl. unfold mbind, M_bind.
  destruct (eval_expr e st) as [[g w] [err|v]]; [reflexivity|].
  unfold store, lookup_name, mret, M_ret. rewrite Hx. simpl.
  by rewrite lookup_insert_eq.
Qed.

(** The same for an annotated assignment, whose annotation is a builtin. *)
Lemma annotated_assign_then_echo (x : string) (e : expr) (st : Ref.state) :
  is_dunder x = false →
  (exec_stmt (AnnAssign (Name x) (Name "int") (Some e) true);; eval_expr (Name x)) st
  = (v ← eval_expr e; store x v;; mret v) st.
Proof.
  intros Hx. unfold mbind, M_bind. simpl. unfold mbind, M_bind.
  destruct (eval_expr e st) as [[g w] [err|v]]; [reflexivity|].
  unfold store, lookup_name, mret, M_ret. rewrite Hx. simpl.
  destruct (<[x:=v]> g !! "int"); simpl; by rewrite lookup_insert_eq.
Qed.

(** The cause of an exception is no part of its formatted text. *)
Lemma format_ignores_cause (e : exn) (c : option exn) :
  Ref.format_exception_only (with_cause e c) = Ref.format_exception_only e.
Proof. reflexivity. Qed.

(** C2. The input is the JSON text of [x = 5]: standard output receives
    the line [5], nothing goes to the diagnostic stream, and [main]
    returns 0. *)
Theorem assignment_is_echoed :
  main runtime (Some (quoted "x = 5")) w0 = (World ("5" +:+ nl) EmptyString, inr 0).
Proof. vm_compute. reflexivity. Qed.

(** C7. The input is the JSON text of [1 + 1]: the statement is an
    expression statement, the body that is executed is empty, the text
    [1 + 1] is evaluated, the line [2] goes to standard output and [main]
    returns 0. *)
Theorem expression_is_echoed :
  let s := Expr (BinOp (Constant (CInt 1)) Add (Constant (CInt 1))) in
  ast_parse runtime (PyStr "1 + 1") = inr (Module_ [s])
  ∧ split_last runtime [s] = inr ([], Some "1 + 1")
  ∧ (∀ st, exec_code runtime (PyStr "1 + 1") st
           = (py_exec runtime EmptyString;; echo runtime (Some "1 + 1")) st)
  ∧ main runtime (Some (quoted "1 + 1")) w0 = (World ("2" +:+ nl) EmptyString, inr 0).
Proof.
  intros s.
  assert (ast_parse runtime (PyStr "1 + 1") = inr (Module_ [s])) as Hp
    by (vm_compute; reflexivity).
  assert (split_last runtime [s] = inr ([], Some "1 + 1")) as Hs
    by (vm_compute; reflexivity).
  split; [exact Hp|]. split; [exact Hs|]. split; [|vm_compute; reflexivity].
  intros st. exact (exec_code_split runtime _ _ _ _ EmptyString st Hp Hs eq_refl).
Qed.

(** C3. The input is the JSON text of [x: int = 5]: the line [5] goes to
    standard output and [main] returns 0. The statement is executed once, as
    the whole of the body given to [exec]; the echo evaluates the text [x]
    alone, which changes no state. Whatever the right-hand side is, running
    the statement and then echoing [x] evaluates it once; with a right-hand
    side that prints, the print appears once. *)
Theorem annotated_assignment_runs_once :
  main runtime (Some (quoted "x: int = 5")) w0 = (World ("5" +:+ nl) EmptyString, inr 0)
  ∧ (∀ st, exec_code runtime (PyStr "x: int = 5") st
           = (py_exec runtime "x: int = 5";; echo runtime (Some "x")) st)
  ∧ (∀ st, (py_eval runtime "x" st).1 = st)
  ∧ (∀ (e : expr) (st : Ref.state),
       (exec_stmt (AnnAssign (Name "x") (Name "int") (Some e) true);; eval_expr (Name "x")) st
       = (v ← eval_expr e; store "x" v;; mret v) st)
  ∧ main runtime (Some (quoted "x: int = print(1)")) w0
    = (World ("1" +:+ nl) EmptyString, inr 0).
Proof.
  split; [vm_compute; reflexivity|].
  split; [|split; [|split; [|vm_compute; reflexivity]]].
  - intros st.
    pose (s := AnnAssign (Name "x") (Name "int") (Some (Constant (CInt 5))) true).
    assert (ast_parse runtime (PyStr "x: int = 5") = inr (Module_ [s])) as Hp
      by (vm_compute; reflexivity).
    assert (split_last runtime [s] = inr ([s], Some "x")) as Hs
      by (vm_compute; reflexivity).
    exact (exec_code_split runtime _ _ _ _ "x: int = 5" st Hp Hs eq_refl).
  - intros st. apply (lookup_name_pure "x" st).
  - intros e st. by apply annotated_assign_then_echo.
Qed.

End Examples.

(** ** The reference decoder against the grammar of JSON *)

Section DecoderGrammar.
Import Ref.

(** A property of characters that holds of all 256 of them. *)
Lemma all_ascii (P : ascii → bool) :
  forallb (λ n, P (ascii_of_nat n)) (seq 0 256) = true → ∀ c, P c = true.
Proof.
  intros H c. rewrite forallb_forall in H.
  rewrite <- (ascii_nat_embedding c). apply H. apply in_seq.
  pose proof (nat_ascii_bounded c). lia.
Qed.

Lemma hex_value_is_hex (c : ascii) :
  match hex_value c with Some _ => true | None => false end = Json.is_hex c.
Proof.
  apply Bool.eqb_prop. revert c.
  apply (all_ascii (λ c, Bool.eqb match hex_value c with Some _ => true | None => false end (Json.is_hex c))).
  vm_compute. reflexivity.
Qed.

Lemma backslash_is_escape (c : ascii) :
  match backslash c with Some _ => true | None => false end = Json.is_escape c.
Proof.
  apply Bool.eqb_prop. revert c.
  apply (all_ascii (λ c, Bool.eqb match backslash c with Some _ => true | None => false end (Json.is_escape c))).
  vm_compute. reflexivity.
Qed.

Lemma ascii_eqb_code (c d : ascii) : Ascii.eqb c d = (Json.code c =? Json.code d)%N.
Proof.
  destruct (Ascii.eqb_spec c d) as [->|Hne].
  - by rewrite N.eqb_refl.
  - symmetry. apply N.eqb_neq. intros H. apply Hne.
    rewrite <- (ascii_N_embedding c), <- (ascii_N_embedding d). unfold Json.code in H. by rewrite H.
Qed.

Lemma skip_space_ws (s : string) : skip_space s = Json.skip_ws s.
Proof. induction s as [|c s IH]; [done|]. simpl. by rewrite IH. Qed.

Lemma span_digits_skip (s : string) : (span_digits s).2 = Json.skip_digits s.
Proof.
  induction s as [|c s IH]; [done|]. simpl.
  change (Ref.is_digit c) with (Json.is_digit c).
  destruct (Json.is_digit c); [|done]. destruct (span_digits s). simpl in *. done.
Qed.

Lemma push_agrees c r (rest0 : option string) :
  agrees r rest0 → agrees (push c r) rest0.
Proof. by destruct r as [e|[t rest]]. Qed.

Lemma scan_string_agrees (n : nat) :
  ∀ s, (String.length s < n)%nat → agrees (scan_string s) (Json.string_rest s).
Proof.
  induction n as [|n IH]; [lia|]. intros s Hn. unfold agrees.
  destruct s as [|c r]; [simpl; right; by split|].
  simpl scan_string. simpl Json.string_rest.
  rewrite (ascii_eqb_code c "034"), (ascii_eqb_code c "\").
  change (Json.code "034") with 34%N. change (Json.code "\") with 92%N.
  change (N_of_ascii c) with (Json.code c).
  destruct (Json.code c =? 34)%N; [done|].
  destruct (Json.code c <? 32)%N; [simpl; right; by split|].
  destruct (Json.code c =? 92)%N.
  - destruct r as [|e r']; [simpl; right; by split|].
    rewrite (ascii_eqb_code e "u"). change (Json.code "u") with 117%N.
    destruct (Json.code e =? 117)%N.
    + destruct r' as [|h1 [|h2 [|h3 [|h4 r'']]]]; try (simpl; right; by split).
      unfold hex4.
      pose proof (hex_value_is_hex h1) as H1. pose proof (hex_value_is_hex h2) as H2.
      pose proof (hex_value_is_hex h3) as H3. pose proof (hex_value_is_hex h4) as H4.
      destruct (hex_value h1) as [x1|], (hex_value h2) as [x2|],
        (hex_value h3) as [x3|], (hex_value h4) as [x4|];
        rewrite <- H1, <- H2, <- H3, <- H4; simpl; try (simpl; right; by split).
      destruct (((x1 * 16 + x2) * 16 + x3) * 16 + x4 <? 256); [|simpl; by left].
      apply push_agrees. apply IH. simpl in Hn. lia.
    + pose proof (backslash_is_escape e) as He.
      destruct (backslash e); rewrite <- He; [|simpl; right; by split].
      apply push_agrees. apply IH. simpl in Hn. lia.
  - apply push_agrees. apply IH. simpl in Hn. lia.
Qed.

Lemma span_digits_digits1 (s : string) :
  match span_digits s with
  | (EmptyString, _) => Json.digits1 s = None
  | (_, r) => Json.digits1 s = Some r
  end.
Proof.
  destruct s as [|c s]; [done|]. simpl.
  change (Ref.is_digit c) with (Json.is_digit c).
  destruct (Json.is_digit c); [|done].
  pose proof (span_digits_skip s) as H. destruct (span_digits s) as [ds r].
  simpl in *. by rewrite H.
Qed.

Lemma span_fraction_rest (s : string) : (span_fraction s).2 = Json.fraction_rest s.
Proof.
  destruct s as [|c r]; [done|]. simpl.
  rewrite (ascii_eqb_code c "."). change (Json.code ".") with 46%N.
  destruct (Json.code c =? 46)%N; [|done].
  pose proof (span_digits_digits1 r) as H.
  destruct (span_digits r) as [[|d ds] r']; by rewrite H.
Qed.

Lemma span_exponent_rest (s : string) : (span_exponent s).2 = Json.exponent_rest s.
Proof.
  destruct s as [|c r]; [done|]. simpl.
  rewrite (ascii_eqb_code c "e"), (ascii_eqb_code c "E").
  change (Json.code "e") with 101%N. change (Json.code "E") with 69%N.
  destruct ((Json.code c =? 101)%N || (Json.code c =? 69)%N); [|done].
  destruct r as [|g r1]; [done|].
  rewrite (ascii_eqb_code g "+"), (ascii_eqb_code g "-").
  change (Json.code "+") with 43%N. change (Json.code "-") with 45%N.
  destruct ((Json.code g =? 43)%N || (Json.code g =? 45)%N).
  - pose proof (span_digits_digits1 r1) as H.
    destruct (span_digits r1) as [[|d ds] r']; by rewrite H.
  - pose proof (span_digits_digits1 (String g r1)) as H.
    destruct (span_digits (String g r1)) as [[|d ds] r']; by rewrite H.
Qed.

Lemma scan_number_tail (negative : bool) (ds r : string) :
  ds ≠ EmptyString →
  agrees
    (let '(frac, r1) := span_fraction r in
     let '(exp, r2) := span_exponent r1 in
     match frac +:+ exp with
     | EmptyString =>
         let z := digits_value ds 0 in
         if small z then inr (PyInt (if negative then - z else z), r2)
         else inl outside_fragment
     | tail => inr (PyFloat ((if negative then "-" else EmptyString) +:+ ds +:+ tail), r2)
     end)
    (Some (Json.exponent_rest (Json.fraction_rest r))).
Proof.
  intros _. rewrite <- span_fraction_rest.
  destruct (span_fraction r) as [frac r1]. simpl.
  rewrite <- span_exponent_rest. destruct (span_exponent r1) as [exp r2]. simpl.
  destruct (frac +:+ exp); [|done]. simpl.
  destruct (small (digits_value ds 0)); [done | by left].
Qed.

Lemma scan_number_agrees (negative : bool) (s : string) : agrees (scan_number negative s) (Json.unsigned_rest s).
Proof.
  unfold scan_number, Json.unsigned_rest.
  destruct s as [|c r]; [simpl; right; by split|].
  rewrite (ascii_eqb_code c "0"). change (Json.code "0") with 48%N.
  destruct (Json.code c =? 48)%N.
  { by apply scan_number_tail. }
  pose proof (span_digits_skip (String c r)) as Hs.
  simpl in Hs |- *. change (Ref.is_digit c) with (Json.is_digit c) in *.
  destruct (Json.is_digit c); [|simpl; right; by split].
  destruct (span_digits r) as [ds r']. simpl in Hs. subst r'.
  by apply scan_number_tail.
Qed.

Lemma agrees_value (r : exn + pyobj * string) rest0 : agrees r rest0 → value_agrees r rest0.
Proof. destruct r as [e|[v rest]]; simpl; [done | by left]. Qed.

Lemma literal_agrees word v s : agrees (literal word v s) (Json.word_rest word s).
Proof.
  unfold literal, Json.word_rest. destruct (String.prefix word s); simpl; [done|].
  right. by split.
Qed.

Lemma literal_beyond word v s :
  beyond_json v → value_agrees (literal word v s) None.
Proof.
  intros Hv. unfold literal. destruct (String.prefix word s); simpl.
  - by right.
  - right. by split.
Qed.

Lemma number_rest_unsigned c r :
  (Json.code c =? 45)%N = false → Json.number_rest (String c r) = Json.unsigned_rest (String c r).
Proof. intros H. unfold Json.number_rest. by rewrite H. Qed.

Lemma number_rest_minus c r :
  (Json.code c =? 45)%N = true → Json.number_rest (String c r) = Json.unsigned_rest r.
Proof. intros H. unfold Json.number_rest. rewrite H. by destruct r. Qed.

Lemma scan_value_agrees (n : nat) (s : string) :
  value_agrees (scan_value s) (Json.value_rest (S n) s).
Proof.
  destruct s as [|c r]; [simpl; right; by split|].
  unfold scan_value. simpl Json.value_rest.
  rewrite !(ascii_eqb_code c).
  change (Json.code "034") with 34%N. change (Json.code "[") with 91%N.
  change (Json.code "{") with 123%N. change (Json.code "n") with 110%N.
  change (Json.code "t") with 116%N. change (Json.code "f") with 102%N.
  change (Json.code "N") with 78%N. change (Json.code "I") with 73%N.
  change (Json.code "-") with 45%N.
  destruct (Json.code c =? 34)%N eqn:E34.
  { pose proof (scan_string_agrees (S (String.length r)) r (Nat.lt_succ_diag_r _)) as H.
    unfold agrees in H. by destruct (scan_string r) as [e|[t rest]]; simpl; [|left]. }
  destruct (Json.code c =? 91)%N eqn:E91; [simpl; by left|].
  destruct (Json.code c =? 123)%N eqn:E123; [simpl; by left|]. simpl orb. cbv iota.
  destruct (Json.code c =? 110)%N eqn:E110.
  { apply N.eqb_eq in E110. rewrite E110. simpl. apply agrees_value, literal_agrees. }
  destruct (Json.code c =? 116)%N eqn:E116.
  { apply agrees_value, literal_agrees. }
  destruct (Json.code c =? 102)%N eqn:E102.
  { apply agrees_value, literal_agrees. }
  destruct (Json.code c =? 78)%N eqn:E78.
  { apply N.eqb_eq in E78. rewrite number_rest_unsigned by (by rewrite E78).
    unfold Json.unsigned_rest, Json.is_digit. rewrite E78. simpl.
    apply literal_beyond. by left. }
  destruct (Json.code c =? 73)%N eqn:E73.
  { apply N.eqb_eq in E73. rewrite number_rest_unsigned by (by rewrite E73).
    unfold Json.unsigned_rest, Json.is_digit. rewrite E73. simpl.
    apply literal_beyond. right. by left. }
  destruct (Json.code c =? 45)%N eqn:E45.
  - rewrite number_rest_minus by done.
    destruct (String.prefix "-Infinity" (String c r)) eqn:Hp.
    + unfold literal. rewrite Hp. simpl. right. split; [right; by right|].
      apply String.prefix_correct in Hp.
      destruct r as [|i r]; [done|].
      simpl in Hp. injection Hp as _ -> _. reflexivity.
    + apply agrees_value, scan_number_agrees.
  - rewrite number_rest_unsigned by done. apply agrees_value, scan_number_agrees.
Qed.

Lemma loads_against_grammar (raw : string) :
  match loads raw with
  | inr v => Json.valid raw = true ∨ (beyond_json v ∧ Json.valid raw = false)
  | inl e => e = outside_fragment
             ∨ (isinstance e "JSONDecodeError" = true ∧ Json.valid raw = false)
  end.
Proof.
  unfold loads, Json.valid. rewrite skip_space_ws.
  replace (2 * String.length raw + 2)%nat with (S (S (2 * String.length raw))) by lia.
  pose proof (scan_value_agrees (S (2 * String.length raw)) (Json.skip_ws raw)) as H.
  unfold value_agrees in H.
  destruct (Json.value_rest (S (S (2 * String.length raw))) (Json.skip_ws raw)) as [rest0|];
    destruct (scan_value (Json.skip_ws raw)) as [e|[v rest]].
  - destruct H as [->|[_ [=]]]. by left.
  - destruct H as [[= ->]|[_ [=]]]. rewrite skip_space_ws.
    destruct (Json.skip_ws rest); [by left | right; by split].
  - destruct H as [->|[He _]]; [by left | right; by split].
  - destruct H as [[=]|[Hv _]]. rewrite skip_space_ws.
    destruct (Json.skip_ws rest); right; by split.
Qed.

(** [main] in the reference runtime at a text that is no JSON text: the
    "decode failed" line and status 1, unless the text is one of the three
    words the decoder takes beyond JSON, which [ast.parse] refuses with the
    [TypeError] of [compile], or the text is outside the decoder's
    fragment. *)
Lemma invalid_json_outcomes (raw : string) (w : world) :
  blank (Some raw) = false →
  Json.valid raw = false →
  main runtime (Some raw) w = (write_stderr ("Error: JSON decode failed" +:+ nl) w, inr 1)
  ∨ (∃ v, loads raw = inr v ∧ beyond_json v
          ∧ main runtime (Some raw) w
            = (write_stderr (join nl (Ref.format_exception_only compile_TypeError)) w, inr 1))
  ∨ loads raw = inl outside_fragment.
Proof.
  intros Hb Hv. simpl in Hb.
  pose proof (loads_against_grammar raw) as H.
  destruct (loads raw) as [e|v] eqn:Hl.
  - destruct H as [->|[He _]]; [right; by right|].
    left. unfold main. rewrite strip_eqb, Hb.
    change (json_loads runtime raw) with (loads raw). by rewrite Hl, He.
  - destruct H as [H|[Hbeyond _]]; [congruence|].
    right. left. exists v. split; [reflexivity|]. split; [exact Hbeyond|].
    rewrite (main_decoded runtime raw v w Hb Hl).
    rewrite exec_code_parse_error with (e := compile_TypeError).
    + simpl. by rewrite print_stderr_no_end.
    + by destruct Hbeyond as [->|[->| ->]].
Qed.

End DecoderGrammar.

(** ** The claims over any runtime, at the reference runtime *)

Section Instances.
Import Ref.

(** [main_no_code] at an input of a tab, a space and a line feed. *)
Lemma main_no_code_witness :
  main runtime (Some (String "009" (" " +:+ nl))) w0
  = (World EmptyString ("Error: no code to execute" +:+ nl), inr 1).
Proof.
  exact (proj1 (main_no_code runtime (Some (String "009" (" " +:+ nl))) w0 eq_refl)).
Defined.

(** [main_decode_failed] at the bare word [hello]. *)
Lemma main_decode_failed_witness :
  main runtime (Some "hello") w0
  = (World EmptyString ("Error: JSON decode failed" +:+ nl), inr 1).
Proof.
  exact (main_decode_failed runtime "hello" (JSONDecodeError "Expecting value") w0
           eq_refl eq_refl eq_refl).
Defined.

(** [main_decoded_not_text] at the JSON number [123]. *)
Lemma main_decoded_not_text_witness :
  main runtime (Some "123") w0
  = (World EmptyString
       ("TypeError: compile() arg 1 must be a string, bytes or AST object" +:+ nl),
     inr 1).
Proof.
  exact (main_decoded_not_text runtime "123" (PyInt 123) w0 eq_refl eq_refl eq_refl).
Defined.


(** [exec_code_last_statement] at a program of two lines that ends with an
    augmented assignment: both lines are executed, then [x] is evaluated. *)
Lemma exec_code_last_statement_witness :
  let src := "x = 1" +:+ nl +:+ "x += 2" in
  exec_code runtime (PyStr src) (∅, w0)
  = (py_exec runtime src;; echo runtime (Some "x")) (∅, w0).
Proof.
  exact (proj2 (exec_code_last_statement runtime
                  (PyStr ("x = 1" +:+ nl +:+ "x += 2"))
                  [Assign [Name "x"] (Constant (CInt 1))]
                  (AugAssign (Name "x") Add (Constant (CInt 2)))
                  false (NExpr (Name "x")) (∅, w0)
                  eq_refl (echoes_AugAssign _ _ _))).
Defined.

(** [none_is_not_echoed] at the source [print(1)]: the line [1] that the
    call prints is all of standard output. *)
Lemma none_is_not_echoed_witness :
  main runtime (Some (quoted "print(1)")) w0 = (World ("1" +:+ nl) EmptyString, inr 0).
Proof.
  exact (none_is_not_echoed runtime (quoted "print(1)") "print(1)"
           (Module_ [Expr (Call (Name "print") [Constant (CInt 1)])]) []
           "print(1)" EmptyString (∅, w0) ∅ w0 (World ("1" +:+ nl) EmptyString) VNone
           eq_refl eq_refl eq_refl eq_refl eq_refl eq_refl eq_refl eq_refl eq_refl).
Defined.

(** [no_echo_for_other_statements] at the source [for i in range(3): pass]:
    nothing is written and [main] returns 0. *)
Lemma no_echo_for_other_statements_witness :
  main runtime (Some (quoted "for i in range(3): pass")) w0 = (w0, inr 0).
Proof.
  destruct (no_echo_for_other_statements runtime
              (quoted "for i in range(3): pass") "for i in range(3): pass"
              (Module_ [For (Name "i") (Call (Name "range") [Constant (CInt 3)]) [Pass]])
              w0 eq_refl eq_refl eq_refl eq_refl) as (_ & _ & ->).
  vm_compute. reflexivity.
Defined.

(** C1, as stated, fails: the program [x = 5] ends with an assignment, and
    the body that is executed still holds it. *)
Lemma plain_assignment_is_kept :
  ¬ (∀ (src : string) (b : list stmt) (targets : list expr) (v : expr)
       (residual : list stmt) (last_expression : option string),
       ast_parse runtime (PyStr src) = inr (Module_ (b ++ [Assign targets v])) →
       split_last runtime (b ++ [Assign targets v]) = inr (residual, last_expression) →
       residual = b).
Proof.
  intros H.
  specialize (H "x = 5" [] [Name "x"] (Constant (CInt 5)) _ _ eq_refl eq_refl).
  discriminate H.
Qed.

(** C6, as stated, fails: the bare word [NaN] is not blank and is no JSON
    text, yet [json.loads] decodes it (to a float), and [main] goes on to
    [exec_code] instead of writing the "decode failed" line. *)
Lemma nan_is_decoded :
  ¬ (∀ raw : string,
       blank (Some raw) = false →
       Json.valid raw = false →
       main runtime (Some raw) w0
       = (write_stderr ("Error: JSON decode failed" +:+ nl) w0, inr 1)).
Proof.
  intros H. specialize (H "NaN" eq_refl eq_refl).
  vm_compute in H. discriminate H.
Qed.

(** What the runner does there, and at the two other words [json.loads]
    takes beyond JSON: the float is no source text, and [ast.parse] raises. *)
Example constants_beyond_json :
  Forall (λ raw,
            Json.valid raw = false
            ∧ main runtime (Some raw) w0
              = (World EmptyString
                   ("TypeError: compile() arg 1 must be a string, bytes or AST object"
                    +:+ nl),
                 inr 1))
         ["NaN"; "Infinity"; "-Infinity"].
Proof. repeat constructor; vm_compute; reflexivity. Qed.

(** The recognizer at a few texts. *)
Example json_valid_examples :
  map Json.valid
      [quoted "x = 5"; "123"; " true "; "[1, 2]"; "{}"; "-0"; "1.5e3";
       "hello"; "tru"; "[1, 2,]"; "01"; "1."; dq +:+ "abc"; "nullx"]
  = [true; true; true; true; true; true; true;
     false; false; false; false; false; false; false].
Proof. vm_compute. reflexivity. Qed.


(** What the runner does there: the exception is passed on and both streams
    stay empty. *)
Example system_exit_passes_through :
  main runtime (Some (quoted "raise SystemExit")) w0
  = (w0, inl (Exn "SystemExit" ["SystemExit"; "BaseException"; "object"] EmptyString None)).
Proof. vm_compute. reflexivity. Qed.

(** An exception raised [from] another is reported without its cause. *)
Example cause_is_not_reported :
  main runtime (Some (quoted "raise ValueError(7) from ZeroDivisionError")) w0
  = (World EmptyString ("ValueError: 7" +:+ nl), inr 1).
Proof. vm_compute. reflexivity. Qed.

(** The program [x = 5] is executed whole, then [x] is evaluated. *)
Example plain_assignment_run (st : Ref.state) :
  exec_code runtime (PyStr "x = 5") st
  = (py_exec runtime "x = 5";; echo runtime (Some "x")) st.
Proof.
  exact (exec_code_split runtime (PyStr "x = 5")
           (Module_ [Assign [Name "x"] (Constant (CInt 5))])
           [Assign [Name "x"] (Constant (CInt 5))] (Some "x") "x = 5" st
           eq_refl eq_refl eq_refl).
Qed.

End Instances.

(** ** Further properties of the runner, over any runtime *)

Section RunnerOutcomes.
Context (rt : Runtime).

(** [main] at a present input, branch by branch. *)
Lemma main_some raw w :
  main rt (Some raw) w
  = if all_space raw then (write_stderr ("Error: no code to execute" +:+ nl) w, inr 1)
    else match json_loads rt raw with
         | inl e =>
             if isinstance e "JSONDecodeError"
             then (write_stderr ("Error: JSON decode failed" +:+ nl) w, inr 1)
             else (w, inl e)
         | inr code => report rt (exec_code rt code (empty_namespace rt, w))
         end.
Proof.
  unfold main, report. rewrite strip_eqb.
  destruct (all_space raw); [reflexivity|].
  destruct (json_loads rt raw) as [e|code]; [reflexivity|].
  destruct (exec_code rt code (empty_namespace rt, w)) as [[g w'] [exc|[]]]; reflexivity.
Qed.

(** What [report] makes of an exception. *)
Lemma report_raise g w' e :
  report rt ((g, w'), inl e)
  = if isinstance e "Exception"
    then (write_stderr (join nl (format_exception_only rt e)) w', inr 1)
    else (w', inl e).
Proof. simpl. destruct (isinstance e "Exception"); by rewrite ?print_stderr_no_end. Qed.

(** X1. A status [main] returns is 0 or 1. *)
Theorem main_status raw_code w w' status :
  main rt raw_code w = (w', inr status) → status = 0 ∨ status = 1.
Proof.
  destruct raw_code as [raw|]; [rewrite main_some | intros [= _ <-]; by right].
  destruct (all_space raw); [intros [= _ <-]; by right|].
  destruct (json_loads rt raw) as [e|code].
  - destruct (isinstance e "JSONDecodeError"); [intros [= _ <-]; by right | discriminate].
  - destruct (exec_code rt code _) as [[g w1] [exc|[]]]; [rewrite report_raise | intros [= _ <-]; by left].
    destruct (isinstance exc "Exception"); [intros [= _ <-]; by right | discriminate].
Qed.

(** X2. [main] returns 0 exactly when the input is not blank, decodes, and
    [exec_code] returns; the streams are then those [exec_code] left: on
    success [main] writes nothing of its own. *)
Theorem main_success_iff raw_code w w' :
  main rt raw_code w = (w', inr 0)
  ↔ ∃ raw code g,
      raw_code = Some raw ∧ blank raw_code = false ∧ json_loads rt raw = inr code
      ∧ exec_code rt code (empty_namespace rt, w) = ((g, w'), inr tt).
Proof.
  split.
  - destruct raw_code as [raw|]; [rewrite main_some | discriminate].
    destruct (all_space raw) eqn:Hb; [discriminate|].
    destruct (json_loads rt raw) as [e|code] eqn:Hj.
    { destruct (isinstance e "JSONDecodeError"); discriminate. }
    destruct (exec_code rt code _) as [[g w1] [exc|[]]] eqn:Hx.
    { rewrite report_raise. destruct (isinstance exc "Exception"); discriminate. }
    intros [= <-]. by exists raw, code, g.
  - intros (raw & code & g & -> & Hb & Hj & Hx). simpl in Hb.
    by rewrite main_some, Hb, Hj, Hx.
Qed.


(** X4. An exception leaves [main] in exactly two ways: the decoder raised
    it and it is no [JSONDecodeError], and the streams are untouched; or
    [exec_code] raised it and it is no instance of [Exception], and the
    streams are those [exec_code] left. [main] writes nothing in either. *)
Theorem main_escape_iff raw_code w w' e :
  main rt raw_code w = (w', inl e) ↔ escapes rt raw_code w w' e.
Proof.
  split.
  - destruct raw_code as [raw|]; [rewrite main_some | discriminate].
    destruct (all_space raw) eqn:Hb; [discriminate|].
    destruct (json_loads rt raw) as [e0|code] eqn:Hj.
    + destruct (isinstance e0 "JSONDecodeError") eqn:He; [discriminate|].
      intros [= <- <-]. by eapply escapes_decoder.
    + destruct (exec_code rt code _) as [[g w1] [exc|[]]] eqn:Hx; [|discriminate].
      rewrite report_raise. destruct (isinstance exc "Exception") eqn:He; [discriminate|].
      intros [= <- <-]. by eapply escapes_program.
  - intros [raw e0 -> Hb Hj He | raw code g w1 e0 -> Hb Hj Hx He]; simpl in Hb.
    + by rewrite main_some, Hb, Hj, He.
    + by rewrite main_some, Hb, Hj, Hx, report_raise, He.
Qed.

(** X5. When the execution of the body raises, [exec_code] raises the same
    exception in the state the body left: the echo text is not evaluated,
    whatever it is. *)
Theorem exec_failure_skips_echo code a residual last_expression text st st' e :
  ast_parse rt code = inr a →
  split_last rt (body a) = inr (residual, last_expression) →
  ast_unparse rt (NMod (Module_ residual)) = inr text →
  py_exec rt text st = (st', inl e) →
  exec_code rt code st = (st', inl e).
Proof.
  intros Hp Hs Hu Hx.
  rewrite (exec_code_split rt code a residual last_expression text st Hp Hs Hu).
  unfold mbind, M_bind. by rewrite Hx.
Qed.

(** X6. When the echo text evaluates to a value that is not [None], [main]
    writes the text [str] gives for it and a line feed to standard output,
    after everything execution and evaluation wrote, and returns 0. *)
Theorem value_is_echoed
    (raw src : string) (a : ast_module) (residual : list stmt)
    (target body_text : string)
    (st1 st2 : namespace rt * world) (g3 : namespace rt) (w w3 : world)
    (v : value rt) (text : string) :
  blank (Some raw) = false →
  json_loads rt raw = inr (PyStr src) →
  ast_parse_str rt src = inr a →
  split_last rt (body a) = inr (residual, Some target) →
  truthy target = true →
  ast_unparse rt (NMod (Module_ residual)) = inr body_text →
  py_exec rt body_text (empty_namespace rt, w) = (st1, inr tt) →
  py_eval rt target st1 = (st2, inr v) →
  is_None rt v = false →
  py_str rt v st2 = ((g3, w3), inr text) →
  main rt (Some raw) w = (write_stdout (text +:+ nl) w3, inr 0).
Proof.
  intros Hb Hj Hp Hs Ht Hu Hx Hv Hn Hstr. simpl in Hb.
  rewrite main_some, Hb, Hj.
  rewrite (exec_code_split rt (PyStr src) a residual (Some target) body_text _ Hp Hs Hu).
  unfold mbind, M_bind. rewrite Hx. simpl. rewrite Ht.
  unfold mbind, M_bind. rewrite Hv, Hn.
  unfold print, mbind, M_bind. by rewrite Hstr.
Qed.


(** X8. Looking at the last statement keeps the body or drops its last
    statement, and drops it only when it is an expression statement: no
    other statement is removed, added or moved. *)
Theorem split_last_keeps_prefix b residual last_expression :
  split_last rt b = inr (residual, last_expression) →
  residual = b ∨ ∃ v, b = residual ++ [Expr v].
Proof.
  destruct b as [|s0 b0] using rev_ind; [intros [= <- _]; by left|].
  destruct (other_kind s0) eqn:Ho.
  { rewrite split_last_other by (unfold ends_with_other; by rewrite last_snoc).
    intros [= <- _]. by left. }
  destruct (not_other_echoes s0 Ho) as [[v ->]|(removed & target & He)].
  { unfold split_last. rewrite last_snoc. discriminate. }
  rewrite (split_last_echoes rt b0 s0 removed target He).
  destruct (ast_unparse rt target) as [e|text]; [discriminate|].
  intros [= <- _]. destruct He; [right; by eexists | by left..].
Qed.

(** X9. An echo text is derived exactly when the body is not empty and its
    last statement is of one of the four classes. *)
Theorem split_last_echo_iff b residual last_expression :
  split_last rt b = inr (residual, last_expression) →
  last_expression = None ↔ ends_with_other b = true.
Proof.
  destruct (ends_with_other b) eqn:Ho.
  { rewrite split_last_other by done. by intros [= _ <-]. }
  destruct b as [|s0 b0] using rev_ind; [discriminate|].
  unfold ends_with_other in Ho. rewrite last_snoc in Ho.
  destruct (not_other_echoes s0 Ho) as [[v ->]|(removed & target & He)].
  { unfold split_last. rewrite last_snoc. discriminate. }
  rewrite (split_last_echoes rt b0 s0 removed target He).
  destruct (ast_unparse rt target) as [e|text]; [discriminate|].
  intros [= _ <-]. by split.
Qed.

(** X10. Looking at the last statement raises in exactly two cases: the
    body ends with one of the four statements and [ast.unparse] raises on
    the node to echo, and the exception is that of [ast.unparse]; or the
    body ends with an assignment with no target, whose [targets[0]] is out
    of range, and the exception is [IndexError]. *)
Theorem split_last_error_iff b e :
  split_last rt b = inl e
  ↔ ∃ b' s, b = b' ++ [s]
      ∧ ((∃ removed target, echoes s removed target ∧ ast_unparse rt target = inl e)
         ∨ (e = IndexError ∧ ∃ v, s = Assign [] v)).
Proof.
  split.
  - destruct b as [|s0 b0] using rev_ind; [discriminate|].
    intros H. exists b0, s0. split; [reflexivity|].
    destruct (other_kind s0) eqn:Ho.
    { rewrite split_last_other in H by (unfold ends_with_other; by rewrite last_snoc).
      discriminate. }
    destruct (not_other_echoes s0 Ho) as [[v ->]|(removed & target & He)].
    { unfold split_last in H. rewrite last_snoc in H. injection H as <-.
      right. split; [reflexivity|]. by exists v. }
    rewrite (split_last_echoes rt b0 s0 removed target He) in H.
    left. exists removed, target. split; [exact He|].
    by destruct (ast_unparse rt target) as [e'|text]; [injection H as -> | discriminate].
  - intros (b' & s & -> & [(removed & target & He & Hu)|(-> & v & ->)]).
    + by rewrite (split_last_echoes rt b' s removed target He), Hu.
    + unfold split_last. by rewrite last_snoc.
Qed.

End RunnerOutcomes.


(** ** The further properties, at the reference runtime *)

Section OutcomeInstances.
Import Ref.

(** [main_status] at the source [x = 5], where the status is 0. *)
Lemma main_status_witness : (0 : Z) = 0 ∨ (0 : Z) = 1.
Proof.
  exact (main_status runtime (Some (quoted "x = 5")) w0
           (World ("5" +:+ nl) EmptyString) 0 eq_refl).
Defined.


(** [exec_failure_skips_echo] at a program of three lines: the first
    prints, the second divides by zero, the third is never evaluated. *)
Lemma exec_failure_skips_echo_witness :
  exec_code runtime (PyStr ("print(1)" +:+ nl +:+ "1/0" +:+ nl +:+ "5")) (∅, w0)
  = ((∅, World ("1" +:+ nl) EmptyString), inl ZeroDivisionError).
Proof.
  exact (exec_failure_skips_echo runtime
           (PyStr ("print(1)" +:+ nl +:+ "1/0" +:+ nl +:+ "5"))
           (Module_ [Expr (Call (Name "print") [Constant (CInt 1)]);
                     Expr (BinOp (Constant (CInt 1)) Div (Constant (CInt 0)));
                     Expr (Constant (CInt 5))])
           [Expr (Call (Name "print") [Constant (CInt 1)]);
            Expr (BinOp (Constant (CInt 1)) Div (Constant (CInt 0)))]
           (Some "5") ("print(1)" +:+ nl +:+ "1 / 0")
           (∅, w0) (∅, World ("1" +:+ nl) EmptyString) ZeroDivisionError
           eq_refl eq_refl eq_refl eq_refl).
Defined.

(** [value_is_echoed] at a program of two lines, [x = 20] and [x * 2 + 2]. *)
Lemma value_is_echoed_witness :
  main runtime (Some (quoted "x = 20\nx * 2 + 2")) w0
  = (World ("42" +:+ nl) EmptyString, inr 0).
Proof.
  exact (value_is_echoed runtime (quoted "x = 20\nx * 2 + 2")
           ("x = 20" +:+ nl +:+ "x * 2 + 2")
           (Module_ [Assign [Name "x"] (Constant (CInt 20));
                     Expr (BinOp (BinOp (Name "x") Mult (Constant (CInt 2))) Add
                             (Constant (CInt 2)))])
           [Assign [Name "x"] (Constant (CInt 20))] "x * 2 + 2" "x = 20"
           (<["x" := VInt 20]> ∅, w0) (<["x" := VInt 20]> ∅, w0)
           (<["x" := VInt 20]> ∅) w0 w0 (VInt 42) "42"
           eq_refl eq_refl eq_refl eq_refl eq_refl eq_refl eq_refl eq_refl eq_refl
           eq_refl).
Defined.


(** [split_last_keeps_prefix] at a body of one expression statement. *)
Lemma split_last_keeps_prefix_witness :
  [] = [Expr (Constant (CInt 1))]
  ∨ ∃ v, [Expr (Constant (CInt 1))] = [] ++ [Expr v].
Proof.
  exact (split_last_keeps_prefix runtime [Expr (Constant (CInt 1))] [] (Some "1") eq_refl).
Defined.

(** [split_last_echo_iff] at a body of one [pass]. *)
Lemma split_last_echo_iff_witness :
  (None : option string) = None ↔ ends_with_other [Pass] = true.
Proof. exact (split_last_echo_iff runtime [Pass] [Pass] None eq_refl). Defined.


End OutcomeInstances.
